(** * cmyk2srgbjpeg: the CMYK to sRGB JPEG driver (tools/cmyk2srgbjpeg.c)

    The driver is a single C function, [main].  It parses its command
    line, opens the input image, looks at the colour interpretation and,
    for a CMYK image only, builds an output file name, runs the ICC
    transform and saves the result.  Everything else is done by libvips
    and GLib; their calls are kept abstract here (an [Env] gives the
    answer of each call in one run of the program) and every call that
    [main] makes is recorded, in order, in the program state. *)

From Stdlib Require Import String Ascii ZArith List Lia Bool.
From Stdlib Require Import Decimal DecimalString.
Import ListNotations.

Local Open Scope string_scope.
Local Open Scope Z_scope.

(* ===================================================================== *)
(** ** C data: [size_t], [strlen], [%d] and bounded formatting           *)
(* ===================================================================== *)

Module CLib.

(** Width of [size_t] (an LP64 platform). *)
Definition size_t_bits : Z := 64.

(** Conversion to [size_t]: unsigned arithmetic wraps modulo [2^64]. *)
Definition to_size_t (z : Z) : Z := z mod 2 ^ size_t_bits.

Definition size_add (a b : Z) : Z := to_size_t (a + b).
Definition size_sub (a b : Z) : Z := to_size_t (a - b).

(** [strlen]: argument strings carry no NUL inside, so the C length is
    the number of characters. *)
Definition strlen (s : string) : Z := Z.of_nat (String.length s).

(** The [%d] conversion of [printf]. *)
Definition fmt_d (n : Z) : string := NilEmpty.string_of_int (Z.to_int n).

(** What a [snprintf]-style call (here [vips_snprintf], libvips's wrapper
    of it) leaves in a buffer of [size] bytes when the fully formatted
    text is [s]: a C string in [size] bytes has at most [size - 1]
    characters, the last byte being the terminating NUL. *)
Definition bounded (size : Z) (s : string) : string :=
  substring 0 (Z.to_nat (size - 1)) s.

End CLib.

(* ===================================================================== *)
(** ** The libvips / GLib interface seen by the driver                   *)
(* ===================================================================== *)

Module Vips.

(** [VipsInterpretation] is a C enum; the driver's comment gives the one
    value it tests ("CMYK (type 15)"). *)
Definition VipsInterpretation : Type := Z.
Definition VIPS_INTERPRETATION_CMYK : VipsInterpretation := 15.

(** Rendering intents are enum values too; the driver's notes quote
    "intent 1 (RELATIVE)". *)
Definition VipsIntent : Type := Z.
Definition IM_INTENT_RELATIVE_COLORIMETRIC : VipsIntent := 1.

(** Modelled from the spec: the [VipsImage] struct is declared in the
    libvips headers, which are not among the tool's sources.  The spec's
    data model gives the attributes of an opened image that matter here:
    the colour-interpretation tag and the optional embedded ICC profile
    (an opaque byte blob); [Pels] stands for the pixel data. *)
Record VipsImage : Type := mkImage {
  Type_ : VipsInterpretation;
  IccProfile : option (list Byte.byte);
  Pels : list Byte.byte
}.

(** [vips_image_get_interpretation] reads the tag of an image. *)
Definition vips_image_get_interpretation (im : VipsImage) : VipsInterpretation :=
  Type_ im.

(** The answers of the library in one run of the program.  C functions
    that return [int] (0 for success) answer a [Z]; functions that return
    an object (or fill an out-parameter on success) answer an [option],
    [None] being NULL (resp. a nonzero return). *)
Record Env : Type := mkEnv {
  (** [vips_init( argv0 )] *)
  vips_init : string -> Z;
  (** [g_option_context_parse( context, &argc, &argv, &error )]: on TRUE
      the remaining [argv] (recognised options are removed from it); on
      FALSE the [GError] message, if one was set. *)
  g_option_context_parse : list string -> list string + option string;
  g_get_prgname : string;
  (** [vips_image_new_mode( filename, mode )] *)
  vips_image_new_mode : string -> string -> option VipsImage;
  (** [vips_icc_transform( in, &out, output_profile, "input_profile", p,
      "intent", i, "embedded", e, NULL )] *)
  vips_icc_transform :
    VipsImage -> string -> string -> VipsIntent -> bool -> option VipsImage;
  (** [vips_image_write_to_file( image, filename )] *)
  vips_image_write_to_file : VipsImage -> string -> Z;
  (** The bytes the saver puts on disk for an image and a file name with
      its save options, when the write succeeds. *)
  saved_bytes : VipsImage -> string -> list Byte.byte
}.

End Vips.

Import CLib Vips.

(* ===================================================================== *)
(** ** Compile-time configuration                                        *)
(* ===================================================================== *)

(** The user-configurable [#define]s that parameterise the conversion,
    together with [VIPS_PATH_MAX] (a libvips header constant, taken as a
    parameter). *)
Record Config : Type := mkConfig {
  CMYK2SRGBJPEG_BACKSTOP_CMYK_ICC : string;
  CMYK2SRGBJPEG_SRGB_ICM : string;
  CMYK2SRGBJPEG_JPEG_QUALITY : Z;
  CMYK2SRGBJPEG_JPEG_EXTENSION : string;
  CMYK2SRGBJPEG_CONVERSION_INTENT : VipsIntent;
  VIPS_PATH_MAX : Z
}.

(** The values in the source as delivered; [VIPS_PATH_MAX] is 4096 in
    libvips. *)
Definition as_delivered : Config := {|
  CMYK2SRGBJPEG_BACKSTOP_CMYK_ICC :=
    "/home/john/vips/share/nip2/data/HP5000_UVDuraImageGlossMaxQ.icc";
  CMYK2SRGBJPEG_SRGB_ICM := "/home/john/vips/share/nip2/data/sRGB.icm";
  CMYK2SRGBJPEG_JPEG_QUALITY := 99;
  CMYK2SRGBJPEG_JPEG_EXTENSION := "jpg";
  CMYK2SRGBJPEG_CONVERSION_INTENT := IM_INTENT_RELATIVE_COLORIMETRIC;
  VIPS_PATH_MAX := 4096
|}.

(** Return codes, as delivered. *)
Definition CMYK2SRGBJPEG_PROBABLY_NOT_CMYK : Z := 0.
Definition CMYK2SRGBJPEG_FATAL_ERROR : Z := 1.
Definition CMYK2SRGBJPEG_CMYK_WITH_UNUSABLE_ICC : Z := 2.
Definition CMYK2SRGBJPEG_CMYK_NO_ICC : Z := 3.
Definition CMYK2SRGBJPEG_CMYK_WITH_USABLE_ICC : Z := 4.

(* ===================================================================== *)
(** ** Program state and the monad of [main]                             *)
(* ===================================================================== *)

(** One entry per call that leaves the program, with its answer. *)
Inductive Call : Type :=
| Call_vips_init (argv0 : string) (rc : Z)
| Call_textdomain
| Call_setlocale
| Call_g_option_context_new
| Call_g_option_context_add_group
| Call_g_option_context_parse (argv : list string)
    (res : list string + option string)
| Call_fprintf_stderr (msg : string)
| Call_g_error_free
| Call_g_option_context_free
| Call_vips_image_new
| Call_vips_object_local_array (n : nat)
| Call_vips_image_new_mode (filename mode : string) (res : option VipsImage)
| Call_vips_image_get_interpretation (im : VipsImage) (res : VipsInterpretation)
| Call_vips_icc_transform (im : VipsImage) (output_profile input_profile : string)
    (intent : VipsIntent) (embedded : bool) (res : option VipsImage)
| Call_vips_image_write_to_file (im : VipsImage) (filename : string) (rc : Z)
| Call_g_object_unref.

(** [global_refs] counts the references held on the [global] image (0
    before [vips_image_new] and after the object is finalised); [t] is
    the local array that hangs off [global]; [calls] is the record of the
    calls made so far, oldest first. *)
Record State : Type := mkState {
  global_refs : nat;
  t : list (option VipsImage);
  calls : list Call
}.

Definition initial : State :=
  {| global_refs := 0; t := []; calls := [] |}.

Definition M (A : Type) : Type := State -> A * State.

Definition ret {A : Type} (a : A) : M A := fun s => (a, s).

Definition bind {A B : Type} (m : M A) (k : A -> M B) : M B :=
  fun s => let (a, s') := m s in k a s'.

Declare Scope prog_scope.
Delimit Scope prog_scope with prog.
Notation "x <- m ;; k" := (bind m (fun x => k))
  (at level 100, m at next level, right associativity) : prog_scope.
Notation "m ;; k" := (bind m (fun _ => k))
  (at level 100, right associativity) : prog_scope.
Local Open Scope prog_scope.

Definition record (c : Call) : M unit :=
  fun s => (tt, {| global_refs := global_refs s; t := t s;
                   calls := (calls s ++ [c])%list |}).

(** [t[i] = v] *)
Fixpoint set_slot {A : Type} (i : nat) (v : A) (l : list A) : list A :=
  match l, i with
  | [], _ => []
  | _ :: l', O => v :: l'
  | x :: l', S i' => x :: set_slot i' v l'
  end.

Definition store_t (i : nat) (v : option VipsImage) : M unit :=
  fun s => (tt, {| global_refs := global_refs s; t := set_slot i v (t s);
                   calls := calls s |}).

(** [global = vips_image_new()] *)
Definition new_global : M unit :=
  record Call_vips_image_new ;;
  fun s => (tt, {| global_refs := 1; t := t s; calls := calls s |}).

(** [t = vips_object_local_array( VIPS_OBJECT( global ), n )] *)
Definition local_array (n : nat) : M unit :=
  record (Call_vips_object_local_array n) ;;
  fun s => (tt, {| global_refs := global_refs s; t := repeat None n;
                   calls := calls s |}).

(** [g_object_unref( global )]: dropping the last reference finalises
    [global] and, with it, the local array and the images parked in it. *)
Definition g_object_unref_global : M unit :=
  record Call_g_object_unref ;;
  fun s => (tt, {| global_refs := pred (global_refs s);
                   t := if Nat.leb (global_refs s) 1 then [] else t s;
                   calls := calls s |}).

(** How a run of [main] ends: a [return] with a status code, or the
    process is ended by [vips_error_exit] with a message. *)
Inductive Outcome : Type :=
| Returned (code : Z)
| ErrorExit (msg : string).

Definition dquote : string := String "034"%char EmptyString.

Section Main.

Variable cfg : Config.
Variable env : Env.

Definition call_vips_init (argv0 : string) : M Z :=
  let rc := vips_init env argv0 in
  record (Call_vips_init argv0 rc) ;; ret rc.

Definition call_g_option_context_parse (argv : list string)
  : M (list string + option string) :=
  let res := g_option_context_parse env argv in
  record (Call_g_option_context_parse argv res) ;; ret res.

Definition call_vips_image_new_mode (filename mode : string)
  : M (option VipsImage) :=
  let res := vips_image_new_mode env filename mode in
  record (Call_vips_image_new_mode filename mode res) ;; ret res.

Definition call_vips_image_get_interpretation (im : VipsImage)
  : M VipsInterpretation :=
  let res := vips_image_get_interpretation im in
  record (Call_vips_image_get_interpretation im res) ;; ret res.

Definition call_vips_icc_transform (im : VipsImage)
  (output_profile input_profile : string) (intent : VipsIntent)
  (embedded : bool) : M (option VipsImage) :=
  let res := vips_icc_transform env im output_profile input_profile
               intent embedded in
  record (Call_vips_icc_transform im output_profile input_profile
            intent embedded res) ;;
  ret res.

Definition call_vips_image_write_to_file (im : VipsImage) (filename : string)
  : M Z :=
  let rc := vips_image_write_to_file env im filename in
  record (Call_vips_image_write_to_file im filename rc) ;; ret rc.

(** [VIPS_PATH_MAX - (strlen( CMYK2SRGBJPEG_JPEG_EXTENSION ) + 8)], an
    expression of type [size_t]. *)
Definition longest_base : Z :=
  size_sub (to_size_t (VIPS_PATH_MAX cfg))
           (size_add (strlen (CMYK2SRGBJPEG_JPEG_EXTENSION cfg)) 8).

(** The text of ["%s.%s[Q=%d]"] for the second argument, the extension
    and the quality. *)
Definition formatted_name (base : string) : string :=
  base ++ "." ++ CMYK2SRGBJPEG_JPEG_EXTENSION cfg
       ++ "[Q=" ++ fmt_d (CMYK2SRGBJPEG_JPEG_QUALITY cfg) ++ "]".

(** [char output_filename[VIPS_PATH_MAX]] after
    [vips_snprintf( output_filename, VIPS_PATH_MAX, "%s.%s[Q=%d]", ... )]:
    the formatted text, as far as the buffer holds it. *)
Definition output_filename (base : string) : string :=
  bounded (VIPS_PATH_MAX cfg) (formatted_name base).

Definition main (argv : list string) : M Outcome :=
  rc <- call_vips_init (nth 0 argv "") ;;
  if negb (rc =? 0) then
    ret (ErrorExit "unable to start VIPS")
  else
    record Call_textdomain ;;
    record Call_setlocale ;;
    record Call_g_option_context_new ;;
    record Call_g_option_context_add_group ;;
    parsed <- call_g_option_context_parse argv ;;
    match parsed with
    | inr error =>
        match error with
        | Some message =>
            record (Call_fprintf_stderr message) ;;
            record Call_g_error_free
        | None => ret tt
        end ;;
        ret (ErrorExit ("try " ++ dquote ++ g_get_prgname env
                               ++ " --help" ++ dquote))
    | inl argv =>
        let argc := Z.of_nat (length argv) in
        record Call_g_option_context_free ;;
        new_global ;;
        local_array 5 ;;
        (* argc != 3 || !(t[0] = vips_image_new_mode( argv[1], "rs" )) *)
        t0 <- (if negb (argc =? 3) then ret None
               else
                 im <- call_vips_image_new_mode (nth 1 argv "") "rs" ;;
                 store_t 0 im ;;
                 ret im) ;;
        match t0 with
        | None =>
            g_object_unref_global ;;
            ret (Returned CMYK2SRGBJPEG_FATAL_ERROR)
        | Some t0 =>
            interpretation <- call_vips_image_get_interpretation t0 ;;
            if interpretation =? VIPS_INTERPRETATION_CMYK then
              if strlen (nth 2 argv "") >? longest_base then
                g_object_unref_global ;;
                ret (Returned CMYK2SRGBJPEG_FATAL_ERROR)
              else
                let output_filename := output_filename (nth 2 argv "") in
                t1 <- call_vips_icc_transform t0
                        (CMYK2SRGBJPEG_SRGB_ICM cfg)
                        (CMYK2SRGBJPEG_BACKSTOP_CMYK_ICC cfg)
                        (CMYK2SRGBJPEG_CONVERSION_INTENT cfg)
                        true ;;
                match t1 with
                | None =>
                    g_object_unref_global ;;
                    ret (Returned CMYK2SRGBJPEG_FATAL_ERROR)
                | Some t1 =>
                    store_t 1 (Some t1) ;;
                    rc <- call_vips_image_write_to_file t1 output_filename ;;
                    if negb (rc =? 0) then
                      g_object_unref_global ;;
                      ret (Returned CMYK2SRGBJPEG_FATAL_ERROR)
                    else
                      g_object_unref_global ;;
                      ret (Returned CMYK2SRGBJPEG_CMYK_WITH_USABLE_ICC)
                end
            else
              g_object_unref_global ;;
              ret (Returned CMYK2SRGBJPEG_PROBABLY_NOT_CMYK)
        end
    end.

(** One run of the program, from process start. *)
Definition run (argv : list string) : Outcome * State := main argv initial.

End Main.

(* ===================================================================== *)
(** ** Observations on a run                                             *)
(* ===================================================================== *)

Definition outcome (r : Outcome * State) : Outcome := fst r.
Definition final (r : Outcome * State) : State := snd r.

(** The write calls of a run: image, file name handed over, return code. *)
Definition writes (s : State) : list (VipsImage * string * Z) :=
  flat_map (fun c => match c with
                     | Call_vips_image_write_to_file im f rc => [(im, f, rc)]
                     | _ => []
                     end) (calls s).

(** The calls of the colour transform in a run (their input images). *)
Definition transforms (s : State) : list VipsImage :=
  flat_map (fun c => match c with
                     | Call_vips_icc_transform im _ _ _ _ _ => [im]
                     | _ => []
                     end) (calls s).

(** An output file is produced when a write call returns 0. *)
Definition output_produced (s : State) : bool :=
  existsb (fun w => snd w =? 0) (writes s).

(** The files a run leaves behind: for each successful write, the file
    name it was given and the bytes the saver produced. *)
Definition files_written (env : Env) (s : State)
  : list (string * list Byte.byte) :=
  flat_map (fun w => match w with
                     | (im, f, rc) =>
                         if rc =? 0 then [(f, saved_bytes env im f)] else []
                     end) (writes s).

(** The program has acquired its image context iff [vips_image_new] was
    called. *)
Definition acquired (s : State) : bool :=
  existsb (fun c => match c with Call_vips_image_new => true | _ => false end)
          (calls s).

(** The most recent call of a run. *)
Definition last_call (s : State) : option Call :=
  match List.rev (calls s) with
  | c :: _ => Some c
  | [] => None
  end.

(** The number of [g_object_unref( global )] calls of a run. *)
Definition unrefs (s : State) : nat :=
  length (filter (fun c => match c with
                           | Call_g_object_unref => true
                           | _ => false
                           end) (calls s)).

(** The context is released: no reference is left on [global], the local
    array (with the images parked in it) is gone, and the one unref is
    the last thing the program did. *)
Definition released (s : State) : Prop :=
  global_refs s = 0%nat /\ t s = [] /\
  unrefs s = 1%nat /\
  last_call s = Some Call_g_object_unref.

(** The positional command line left once start-up (library
    initialisation and option parsing) has succeeded. *)
Definition positional (env : Env) (argv : list string) : option (list string) :=
  if vips_init env (nth 0 argv "") =? 0 then
    match g_option_context_parse env argv with
    | inl args => Some args
    | inr _ => None
    end
  else None.

(** The input image and the output base path of an invocation with
    exactly two positional arguments whose input opens. *)
Definition opened_input (env : Env) (argv : list string)
  : option (VipsImage * string) :=
  match positional env argv with
  | Some args =>
      if Z.of_nat (length args) =? 3 then
        match vips_image_new_mode env (nth 1 args "") "rs" with
        | Some im => Some (im, nth 2 args "")
        | None => None
        end
      else None
  | None => None
  end.

(** The path of the converted image: the output base, a period and the
    configured extension. *)
Definition output_path (cfg : Config) (base : string) : string :=
  base ++ "." ++ CMYK2SRGBJPEG_JPEG_EXTENSION cfg.

(* ===================================================================== *)
(** ** A small sample world, for concrete runs                           *)
(* ===================================================================== *)

Module Sample.

Definition cmyk_plain : VipsImage :=
  {| Type_ := VIPS_INTERPRETATION_CMYK; IccProfile := None;
     Pels := [Byte.x0c; Byte.x4d; Byte.x59; Byte.x4b] |}.

Definition rgb_plain : VipsImage :=
  {| Type_ := 22; IccProfile := None;
     Pels := [Byte.x52; Byte.x47; Byte.x42] |}.

(** The transform answers an sRGB image with the same pixel count. *)
Definition to_srgb (im : VipsImage) : VipsImage :=
  {| Type_ := 22; IccProfile := Some [Byte.x73];
     Pels := firstn 3 (Pels im) |}.

Definition open_file (filename mode : string) : option VipsImage :=
  if String.eqb filename "photo_cmyk.tif" then Some cmyk_plain
  else if String.eqb filename "a.jpg" then Some cmyk_plain
  else if String.eqb filename "photo_rgb.tif" then Some rgb_plain
  else None.

(** Every library call succeeds; three files exist. *)
Definition world : Env := {|
  vips_init := fun _ => 0;
  g_option_context_parse := fun argv => inl argv;
  g_get_prgname := "cmyk2srgbjpeg";
  vips_image_new_mode := open_file;
  vips_icc_transform := fun im _ _ _ _ => Some (to_srgb im);
  vips_image_write_to_file := fun _ _ => 0;
  saved_bytes := fun im _ => Pels im
|}.

(** The same world, with a colour transform that fails. *)
Definition world_no_transform : Env := {|
  vips_init := vips_init world;
  g_option_context_parse := g_option_context_parse world;
  g_get_prgname := g_get_prgname world;
  vips_image_new_mode := vips_image_new_mode world;
  vips_icc_transform := fun _ _ _ _ _ => None;
  vips_image_write_to_file := vips_image_write_to_file world;
  saved_bytes := saved_bytes world
|}.

Definition argv_cmyk : list string :=
  ["cmyk2srgbjpeg"; "photo_cmyk.tif"; "out/photo"].

Definition argv_rgb : list string :=
  ["cmyk2srgbjpeg"; "photo_rgb.tif"; "out/photo"].

(** A string of [n] letters. *)
Fixpoint letters (n : nat) : string :=
  match n with
  | O => EmptyString
  | S n' => String "a"%char (letters n')
  end.

(** The delivered configuration, built with the JPEG quality set to 100
    (the top of the documented range 0..100). *)
Definition quality_100 : Config := {|
  CMYK2SRGBJPEG_BACKSTOP_CMYK_ICC := CMYK2SRGBJPEG_BACKSTOP_CMYK_ICC as_delivered;
  CMYK2SRGBJPEG_SRGB_ICM := CMYK2SRGBJPEG_SRGB_ICM as_delivered;
  CMYK2SRGBJPEG_JPEG_QUALITY := 100;
  CMYK2SRGBJPEG_JPEG_EXTENSION := CMYK2SRGBJPEG_JPEG_EXTENSION as_delivered;
  CMYK2SRGBJPEG_CONVERSION_INTENT := CMYK2SRGBJPEG_CONVERSION_INTENT as_delivered;
  VIPS_PATH_MAX := VIPS_PATH_MAX as_delivered
|}.

(** An output base of exactly the longest length the check lets through. *)
Definition argv_longest : list string :=
  ["cmyk2srgbjpeg"; "photo_cmyk.tif"; letters 4085].

(** The converted image is asked to go where the input is. *)
Definition argv_onto_input : list string :=
  ["cmyk2srgbjpeg"; "a.jpg"; "a"].

End Sample.

(* ===================================================================== *)
(** ** Names for the records of calls and for the cases of a run       *)
(* ===================================================================== *)

(** The calls every run makes before it looks at its arguments, when
    start-up succeeds. *)
Definition parse_calls (argv : list string)
  (res : list string + option string) : list Call :=
  [Call_vips_init (nth 0 argv "") 0;
   Call_textdomain;
   Call_setlocale;
   Call_g_option_context_new;
   Call_g_option_context_add_group;
   Call_g_option_context_parse argv res].

Definition startup_calls (argv args : list string) : list Call :=
  (parse_calls argv (inl args) ++
   [Call_g_option_context_free;
    Call_vips_image_new;
    Call_vips_object_local_array 5])%list.

(** The state in which every [return] of [main] leaves the program, for a
    given record of calls. *)
Definition finished (cs : list Call) : State :=
  {| global_refs := 0; t := []; calls := cs |}.

(** The calls up to and including the test of the interpretation. *)
Definition inspect_calls (argv args : list string) (im : VipsImage)
  : list Call :=
  (startup_calls argv args ++
   [Call_vips_image_new_mode (nth 1 args "") "rs" (Some im);
    Call_vips_image_get_interpretation im (Type_ im)])%list.

(** The transform call of the driver, with its configured arguments. *)
Definition transform_call (cfg : Config) (im : VipsImage)
  (res : option VipsImage) : Call :=
  Call_vips_icc_transform im
    (CMYK2SRGBJPEG_SRGB_ICM cfg) (CMYK2SRGBJPEG_BACKSTOP_CMYK_ICC cfg)
    (CMYK2SRGBJPEG_CONVERSION_INTENT cfg) true res.

(** The decision tree of [main]: which answers of the environment send
    a run down which path. *)
Inductive RunCase (cfg : Config) (env : Env) (argv : list string) : Prop :=
| case_init_fails :
    vips_init env (nth 0 argv "") <> 0 -> RunCase cfg env argv
| case_parse_fails (error : option string) :
    vips_init env (nth 0 argv "") = 0 ->
    g_option_context_parse env argv = inr error -> RunCase cfg env argv
| case_bad_argc (args : list string) :
    positional env argv = Some args ->
    Z.of_nat (length args) <> 3 -> RunCase cfg env argv
| case_open_fails (args : list string) :
    positional env argv = Some args ->
    Z.of_nat (length args) = 3 ->
    vips_image_new_mode env (nth 1 args "") "rs" = None ->
    RunCase cfg env argv
| case_not_cmyk (args : list string) (im : VipsImage) :
    positional env argv = Some args ->
    Z.of_nat (length args) = 3 ->
    vips_image_new_mode env (nth 1 args "") "rs" = Some im ->
    Type_ im <> VIPS_INTERPRETATION_CMYK ->
    RunCase cfg env argv
| case_too_long (args : list string) (im : VipsImage) :
    positional env argv = Some args ->
    Z.of_nat (length args) = 3 ->
    vips_image_new_mode env (nth 1 args "") "rs" = Some im ->
    Type_ im = VIPS_INTERPRETATION_CMYK ->
    strlen (nth 2 args "") > longest_base cfg ->
    RunCase cfg env argv
| case_transform_fails (args : list string) (im : VipsImage) :
    positional env argv = Some args ->
    Z.of_nat (length args) = 3 ->
    vips_image_new_mode env (nth 1 args "") "rs" = Some im ->
    Type_ im = VIPS_INTERPRETATION_CMYK ->
    strlen (nth 2 args "") <= longest_base cfg ->
    vips_icc_transform env im
      (CMYK2SRGBJPEG_SRGB_ICM cfg) (CMYK2SRGBJPEG_BACKSTOP_CMYK_ICC cfg)
      (CMYK2SRGBJPEG_CONVERSION_INTENT cfg) true = None ->
    RunCase cfg env argv
| case_write_fails (args : list string) (im out : VipsImage) :
    positional env argv = Some args ->
    Z.of_nat (length args) = 3 ->
    vips_image_new_mode env (nth 1 args "") "rs" = Some im ->
    Type_ im = VIPS_INTERPRETATION_CMYK ->
    strlen (nth 2 args "") <= longest_base cfg ->
    vips_icc_transform env im
      (CMYK2SRGBJPEG_SRGB_ICM cfg) (CMYK2SRGBJPEG_BACKSTOP_CMYK_ICC cfg)
      (CMYK2SRGBJPEG_CONVERSION_INTENT cfg) true = Some out ->
    vips_image_write_to_file env out (output_filename cfg (nth 2 args "")) <> 0 ->
    RunCase cfg env argv
| case_success (args : list string) (im out : VipsImage) :
    positional env argv = Some args ->
    Z.of_nat (length args) = 3 ->
    vips_image_new_mode env (nth 1 args "") "rs" = Some im ->
    Type_ im = VIPS_INTERPRETATION_CMYK ->
    strlen (nth 2 args "") <= longest_base cfg ->
    vips_icc_transform env im
      (CMYK2SRGBJPEG_SRGB_ICM cfg) (CMYK2SRGBJPEG_BACKSTOP_CMYK_ICC cfg)
      (CMYK2SRGBJPEG_CONVERSION_INTENT cfg) true = Some out ->
    vips_image_write_to_file env out (output_filename cfg (nth 2 args "")) = 0 ->
    RunCase cfg env argv.

(** Every step of the conversion succeeds: the input opens and is CMYK,
    the output base passes the length check, the colour transform answers
    an image and the write returns 0. *)
Definition conversion_succeeds (cfg : Config) (env : Env)
  (argv : list string) : Prop :=
  exists im base out,
    opened_input env argv = Some (im, base) /\
    vips_image_get_interpretation im = VIPS_INTERPRETATION_CMYK /\
    strlen base <= longest_base cfg /\
    vips_icc_transform env im
      (CMYK2SRGBJPEG_SRGB_ICM cfg) (CMYK2SRGBJPEG_BACKSTOP_CMYK_ICC cfg)
      (CMYK2SRGBJPEG_CONVERSION_INTENT cfg) true = Some out /\
    vips_image_write_to_file env out (output_filename cfg base) = 0.

(** The files a run asks the library to open: file name and mode. *)
Definition opens (s : State) : list (string * string) :=
  flat_map (fun c => match c with
                     | Call_vips_image_new_mode f m _ => [(f, m)]
                     | _ => []
                     end) (calls s).

(** The messages a run prints on [stderr] itself. *)
Definition stderr_lines (s : State) : list string :=
  flat_map (fun c => match c with
                     | Call_fprintf_stderr m => [m]
                     | _ => []
                     end) (calls s).

(** The message of the second [vips_error_exit] of [main]. *)
Definition try_help (env : Env) : string :=
  "try " ++ dquote ++ g_get_prgname env ++ " --help" ++ dquote.

(** [main] as a relation: each way a run can end, with the answers of the
    environment that lead there, the outcome and the final state. *)
Inductive Ends (cfg : Config) (env : Env) (argv : list string)
  : Outcome * State -> Prop :=
| ends_init_fails :
    vips_init env (nth 0 argv "") <> 0 ->
    positional env argv = None ->
    opened_input env argv = None ->
    Ends cfg env argv
      (ErrorExit "unable to start VIPS",
       {| global_refs := 0; t := [];
          calls := [Call_vips_init (nth 0 argv "")
                      (vips_init env (nth 0 argv ""))] |})
| ends_parse_fails (error : option string) :
    vips_init env (nth 0 argv "") = 0 ->
    g_option_context_parse env argv = inr error ->
    positional env argv = None ->
    opened_input env argv = None ->
    Ends cfg env argv
      (ErrorExit (try_help env),
       {| global_refs := 0; t := [];
          calls := (parse_calls argv (inr error) ++
                    match error with
                    | Some message =>
                        [Call_fprintf_stderr message; Call_g_error_free]
                    | None => []
                    end)%list |})
| ends_bad_argc (args : list string) :
    positional env argv = Some args ->
    Z.of_nat (length args) <> 3 ->
    opened_input env argv = None ->
    Ends cfg env argv
      (Returned CMYK2SRGBJPEG_FATAL_ERROR,
       finished (startup_calls argv args ++ [Call_g_object_unref]))
| ends_open_fails (args : list string) :
    positional env argv = Some args ->
    Z.of_nat (length args) = 3 ->
    vips_image_new_mode env (nth 1 args "") "rs" = None ->
    opened_input env argv = None ->
    Ends cfg env argv
      (Returned CMYK2SRGBJPEG_FATAL_ERROR,
       finished (startup_calls argv args ++
                 [Call_vips_image_new_mode (nth 1 args "") "rs" None;
                  Call_g_object_unref]))
| ends_not_cmyk (args : list string) (im : VipsImage) :
    positional env argv = Some args ->
    Z.of_nat (length args) = 3 ->
    opened_input env argv = Some (im, nth 2 args "") ->
    Type_ im <> VIPS_INTERPRETATION_CMYK ->
    Ends cfg env argv
      (Returned CMYK2SRGBJPEG_PROBABLY_NOT_CMYK,
       finished (inspect_calls argv args im ++ [Call_g_object_unref]))
| ends_too_long (args : list string) (im : VipsImage) :
    positional env argv = Some args ->
    Z.of_nat (length args) = 3 ->
    opened_input env argv = Some (im, nth 2 args "") ->
    Type_ im = VIPS_INTERPRETATION_CMYK ->
    strlen (nth 2 args "") > longest_base cfg ->
    Ends cfg env argv
      (Returned CMYK2SRGBJPEG_FATAL_ERROR,
       finished (inspect_calls argv args im ++ [Call_g_object_unref]))
| ends_transform_fails (args : list string) (im : VipsImage) :
    positional env argv = Some args ->
    Z.of_nat (length args) = 3 ->
    opened_input env argv = Some (im, nth 2 args "") ->
    Type_ im = VIPS_INTERPRETATION_CMYK ->
    strlen (nth 2 args "") <= longest_base cfg ->
    vips_icc_transform env im
      (CMYK2SRGBJPEG_SRGB_ICM cfg) (CMYK2SRGBJPEG_BACKSTOP_CMYK_ICC cfg)
      (CMYK2SRGBJPEG_CONVERSION_INTENT cfg) true = None ->
    Ends cfg env argv
      (Returned CMYK2SRGBJPEG_FATAL_ERROR,
       finished (inspect_calls argv args im ++
                 [transform_call cfg im None; Call_g_object_unref]))
| ends_write_fails (args : list string) (im out : VipsImage) :
    positional env argv = Some args ->
    Z.of_nat (length args) = 3 ->
    opened_input env argv = Some (im, nth 2 args "") ->
    Type_ im = VIPS_INTERPRETATION_CMYK ->
    strlen (nth 2 args "") <= longest_base cfg ->
    vips_icc_transform env im
      (CMYK2SRGBJPEG_SRGB_ICM cfg) (CMYK2SRGBJPEG_BACKSTOP_CMYK_ICC cfg)
      (CMYK2SRGBJPEG_CONVERSION_INTENT cfg) true = Some out ->
    vips_image_write_to_file env out (output_filename cfg (nth 2 args "")) <> 0 ->
    Ends cfg env argv
      (Returned CMYK2SRGBJPEG_FATAL_ERROR,
       finished (inspect_calls argv args im ++
                 [transform_call cfg im (Some out);
                  Call_vips_image_write_to_file out
                    (output_filename cfg (nth 2 args ""))
                    (vips_image_write_to_file env out
                       (output_filename cfg (nth 2 args "")));
                  Call_g_object_unref]))
| ends_success (args : list string) (im out : VipsImage) :
    positional env argv = Some args ->
    Z.of_nat (length args) = 3 ->
    opened_input env argv = Some (im, nth 2 args "") ->
    Type_ im = VIPS_INTERPRETATION_CMYK ->
    strlen (nth 2 args "") <= longest_base cfg ->
    vips_icc_transform env im
      (CMYK2SRGBJPEG_SRGB_ICM cfg) (CMYK2SRGBJPEG_BACKSTOP_CMYK_ICC cfg)
      (CMYK2SRGBJPEG_CONVERSION_INTENT cfg) true = Some out ->
    vips_image_write_to_file env out (output_filename cfg (nth 2 args "")) = 0 ->
    Ends cfg env argv
      (Returned CMYK2SRGBJPEG_CMYK_WITH_USABLE_ICC,
       finished (inspect_calls argv args im ++
                 [transform_call cfg im (Some out);
                  Call_vips_image_write_to_file out
                    (output_filename cfg (nth 2 args "")) 0;
                  Call_g_object_unref])).

(** One of the steps of the conversion fails once start-up has
    succeeded: wrong argument count, the input does not open, or, for a
    CMYK input, the output base is too long, the colour transform fails
    or the write fails. *)
Definition a_step_fails (cfg : Config) (env : Env) (argv : list string)
  : Prop :=
  exists args,
    positional env argv = Some args /\
    (Z.of_nat (length args) <> 3 \/
     Z.of_nat (length args) = 3 /\
     (vips_image_new_mode env (nth 1 args "") "rs" = None \/
      exists im,
        vips_image_new_mode env (nth 1 args "") "rs" = Some im /\
        vips_image_get_interpretation im = VIPS_INTERPRETATION_CMYK /\
        (strlen (nth 2 args "") > longest_base cfg \/
         strlen (nth 2 args "") <= longest_base cfg /\
         (vips_icc_transform env im
            (CMYK2SRGBJPEG_SRGB_ICM cfg) (CMYK2SRGBJPEG_BACKSTOP_CMYK_ICC cfg)
            (CMYK2SRGBJPEG_CONVERSION_INTENT cfg) true = None \/
          exists out,
            vips_icc_transform env im
              (CMYK2SRGBJPEG_SRGB_ICM cfg)
              (CMYK2SRGBJPEG_BACKSTOP_CMYK_ICC cfg)
              (CMYK2SRGBJPEG_CONVERSION_INTENT cfg) true = Some out /\
            vips_image_write_to_file env out
              (output_filename cfg (nth 2 args "")) <> 0)))).

(** Splits a membership in a concrete record of calls. *)
Ltac in_calls H :=
  unfold final, finished, inspect_calls, startup_calls, parse_calls,
    transform_call, writes, transforms, opens in H;
  cbn in H;
  repeat (destruct H as [H | H]; try discriminate H);
  try contradiction.

(* ===================================================================== *)
(** ** Runs one after the other on a disk                                *)
(* ===================================================================== *)

(** A disk: the content of every file that exists. *)
Definition Disk : Type := string -> option (list Byte.byte).

(** The disk once [b] has been saved at path [p]. *)
Definition store (d : Disk) (p : string) (b : list Byte.byte) : Disk :=
  fun q => if String.eqb q p then Some b else d q.

(** Modelled from the spec: the loaders and savers of libvips are not
    among the tool's sources.  The spec treats decoding and encoding as
    black-box services: opening fails on an unrecognised format
    ([decode] answers [None]), the encoder is deterministic ([encode] is
    a function of the image and of the file name with its quality
    specifier, [None] when the write fails), and the quality specifier
    is not part of the file name on disk ([file_of] gives the file a
    name with its specifier denotes). *)
Record Codec : Type := mkCodec {
  decode : list Byte.byte -> option VipsImage;
  encode : VipsImage -> string -> option (list Byte.byte);
  file_of : string -> string
}.

(** Modelled from the spec: the answers of the library of [base] at work
    on the disk [d].  Opening a file answers the decoding of its bytes
    and fails for a missing file; a write returns 0 exactly when the
    encoder produces bytes, -1 otherwise; start-up and the colour
    transform (with its fixed profile set) are those of [base]. *)
Definition on_disk (base : Env) (c : Codec) (d : Disk) : Env := {|
  vips_init := vips_init base;
  g_option_context_parse := g_option_context_parse base;
  g_get_prgname := g_get_prgname base;
  vips_image_new_mode := fun filename _ =>
    match d filename with
    | Some bytes => decode c bytes
    | None => None
    end;
  vips_icc_transform := vips_icc_transform base;
  vips_image_write_to_file := fun im f =>
    match encode c im f with
    | Some _ => 0
    | None => -1
    end;
  saved_bytes := fun im f =>
    match encode c im f with
    | Some bytes => bytes
    | None => []
    end
|}.

(** The disk a run leaves: every successful write of the run has put its
    bytes at the file its name denotes. *)
Definition disk_after (c : Codec) (env : Env) (d : Disk) (s : State) : Disk :=
  fold_left (fun d' w => store d' (file_of c (fst w)) (snd w))
            (files_written env s) d.

Section Twice.

Variable cfg : Config.
Variable base : Env.
Variable c : Codec.
Variable d : Disk.
Variable argv : list string.

(** The program run on the disk [d]. *)
Definition first_run : Outcome * State := run cfg (on_disk base c d) argv.

(** The disk after that run. *)
Definition disk_after_first : Disk :=
  disk_after c (on_disk base c d) d (final first_run).

(** The program run again, with the same arguments, on the disk the
    first run left. *)
Definition second_run : Outcome * State :=
  run cfg (on_disk base c disk_after_first) argv.

(** The disk after the second run. *)
Definition disk_after_second : Disk :=
  disk_after c (on_disk base c disk_after_first) disk_after_first
             (final second_run).

End Twice.

Module SampleDisk.

(** A file name without its bracketed save options. *)
Fixpoint before_bracket (s : string) : string :=
  match s with
  | EmptyString => EmptyString
  | String ch s' =>
      if Ascii.eqb ch "["%char then EmptyString
      else String ch (before_bracket s')
  end.

(** Files starting with byte 0c hold a CMYK image, files starting with
    the JPEG marker ff d8 hold an sRGB image; anything else is not an
    image. *)
Definition load (bytes : list Byte.byte) : option VipsImage :=
  match bytes with
  | Byte.x0c :: _ =>
      Some {| Type_ := VIPS_INTERPRETATION_CMYK; IccProfile := None;
              Pels := bytes |}
  | Byte.xff :: Byte.xd8 :: pels =>
      Some {| Type_ := 22; IccProfile := None; Pels := pels |}
  | _ => None
  end.

Definition codec : Codec := {|
  decode := load;
  encode := fun im _ => Some (Byte.xff :: Byte.xd8 :: Pels im);
  file_of := before_bracket
|}.

Definition cmyk_bytes : list Byte.byte :=
  [Byte.x0c; Byte.x4d; Byte.x59; Byte.x4b].

(** A disk with one CMYK image, stored under two names. *)
Definition disk : Disk :=
  store (store (fun _ => None) "photo_cmyk.tif" cmyk_bytes) "a.jpg" cmyk_bytes.

End SampleDisk.

(** Unfolds the monadic plumbing so that a run computes as far as the
    answers of the environment are known. *)
Ltac exec :=
  unfold bind, ret, record, new_global, local_array, store_t,
    g_object_unref_global, call_vips_image_new_mode,
    call_vips_image_get_interpretation, call_vips_icc_transform,
    call_vips_image_write_to_file, vips_image_get_interpretation;
  cbn -[Z.gtb longest_base output_filename nth].

(* ===================================================================== *)
(** ** Basic facts                                                       *)
(* ===================================================================== *)

Lemma positional_inv env argv args :
  positional env argv = Some args ->
  vips_init env (nth 0 argv "") = 0 /\
  g_option_context_parse env argv = inl args.
Proof.
  unfold positional.
  destruct (Z.eqb_spec (vips_init env (nth 0 argv "")) 0) as [H0 | H0];
    [| discriminate].
  destruct (g_option_context_parse env argv) as [a | e]; [| discriminate].
  intros E; inversion E; subst; auto.
Qed.

Lemma opened_input_inv env argv im base :
  opened_input env argv = Some (im, base) ->
  exists args,
    positional env argv = Some args /\
    Z.of_nat (length args) = 3 /\
    vips_image_new_mode env (nth 1 args "") "rs" = Some im /\
    base = nth 2 args "".
Proof.
  unfold opened_input.
  destruct (positional env argv) as [args |]; [| discriminate].
  destruct (Z.eqb_spec (Z.of_nat (length args)) 3) as [H3 | H3];
    [| discriminate].
  destruct (vips_image_new_mode env (nth 1 args "") "rs") as [im' |] eqn:Ho;
    [| discriminate].
  intros E; inversion E; subst. exists args; auto.
Qed.

(** The start of every run whose start-up succeeds. *)
Lemma run_positional cfg env argv args :
  positional env argv = Some args ->
  run cfg env argv =
  (let argc := Z.of_nat (length args) in
   (record Call_g_option_context_free ;;
    new_global ;;
    local_array 5 ;;
    t0 <- (if negb (argc =? 3) then ret None
           else
             im <- call_vips_image_new_mode env (nth 1 args "") "rs" ;;
             store_t 0 im ;;
             ret im) ;;
    match t0 with
    | None =>
        g_object_unref_global ;;
        ret (Returned CMYK2SRGBJPEG_FATAL_ERROR)
    | Some t0 =>
        interpretation <- call_vips_image_get_interpretation t0 ;;
        if interpretation =? VIPS_INTERPRETATION_CMYK then
          if strlen (nth 2 args "") >? longest_base cfg then
            g_object_unref_global ;;
            ret (Returned CMYK2SRGBJPEG_FATAL_ERROR)
          else
            t1 <- call_vips_icc_transform env t0
                    (CMYK2SRGBJPEG_SRGB_ICM cfg)
                    (CMYK2SRGBJPEG_BACKSTOP_CMYK_ICC cfg)
                    (CMYK2SRGBJPEG_CONVERSION_INTENT cfg)
                    true ;;
            match t1 with
            | None =>
                g_object_unref_global ;;
                ret (Returned CMYK2SRGBJPEG_FATAL_ERROR)
            | Some t1 =>
                store_t 1 (Some t1) ;;
                rc <- call_vips_image_write_to_file env t1
                        (output_filename cfg (nth 2 args "")) ;;
                if negb (rc =? 0) then
                  g_object_unref_global ;;
                  ret (Returned CMYK2SRGBJPEG_FATAL_ERROR)
                else
                  g_object_unref_global ;;
                  ret (Returned CMYK2SRGBJPEG_CMYK_WITH_USABLE_ICC)
            end
        else
          g_object_unref_global ;;
          ret (Returned CMYK2SRGBJPEG_PROBABLY_NOT_CMYK)
    end)
     {| global_refs := 0; t := []; calls := parse_calls argv (inl args) |}).
Proof.
  intros H. apply positional_inv in H. destruct H as [Hi Hp].
  unfold run, main, call_vips_init, call_g_option_context_parse.
  unfold bind at 1. unfold bind at 1. cbn. rewrite Hi. cbn.
  do 10 (unfold bind at 1; cbn). rewrite Hp. reflexivity.
Qed.

(* ===================================================================== *)
(** ** The paths through [main]                                          *)
(* ===================================================================== *)

Section Paths.

Variable cfg : Config.
Variable env : Env.
Variable argv : list string.

Lemma path_init_fails :
  vips_init env (nth 0 argv "") <> 0 ->
  run cfg env argv =
  (ErrorExit "unable to start VIPS",
   {| global_refs := 0; t := [];
      calls := [Call_vips_init (nth 0 argv "")
                  (vips_init env (nth 0 argv ""))] |}).
Proof.
  intros H. unfold run, main, call_vips_init. exec.
  destruct (Z.eqb_spec (vips_init env (nth 0 argv "")) 0); [contradiction |].
  reflexivity.
Qed.

Lemma path_parse_fails (error : option string) :
  vips_init env (nth 0 argv "") = 0 ->
  g_option_context_parse env argv = inr error ->
  outcome (run cfg env argv) =
    ErrorExit ("try " ++ dquote ++ g_get_prgname env ++ " --help" ++ dquote) /\
  global_refs (final (run cfg env argv)) = 0%nat /\
  calls (final (run cfg env argv)) =
    (parse_calls argv (inr error) ++
     match error with
     | Some message => [Call_fprintf_stderr message; Call_g_error_free]
     | None => []
     end)%list.
Proof.
  intros Hi Hp. unfold run, main, call_vips_init, call_g_option_context_parse.
  exec. rewrite Hi. exec. rewrite Hp.
  destruct error; repeat split; reflexivity.
Qed.

Variable args : list string.
Hypothesis Hstart : positional env argv = Some args.

Lemma path_bad_argc :
  Z.of_nat (length args) <> 3 ->
  run cfg env argv =
  (Returned CMYK2SRGBJPEG_FATAL_ERROR,
   finished (startup_calls argv args ++ [Call_g_object_unref])).
Proof.
  intros H. rewrite (run_positional _ _ _ _ Hstart). exec.
  destruct (Z.eqb_spec (Z.of_nat (length args)) 3); [contradiction |].
  reflexivity.
Qed.

Hypothesis Hargc : Z.of_nat (length args) = 3.

Lemma path_open_fails :
  vips_image_new_mode env (nth 1 args "") "rs" = None ->
  run cfg env argv =
  (Returned CMYK2SRGBJPEG_FATAL_ERROR,
   finished (startup_calls argv args ++
             [Call_vips_image_new_mode (nth 1 args "") "rs" None;
              Call_g_object_unref])).
Proof.
  intros H. rewrite (run_positional _ _ _ _ Hstart). exec.
  rewrite Hargc. exec. rewrite H. reflexivity.
Qed.

Variable im : VipsImage.
Hypothesis Hopen : vips_image_new_mode env (nth 1 args "") "rs" = Some im.

Lemma path_not_cmyk :
  Type_ im <> VIPS_INTERPRETATION_CMYK ->
  run cfg env argv =
  (Returned CMYK2SRGBJPEG_PROBABLY_NOT_CMYK,
   finished (inspect_calls argv args im ++ [Call_g_object_unref])).
Proof.
  intros H. rewrite (run_positional _ _ _ _ Hstart). exec.
  rewrite Hargc. exec. rewrite Hopen. exec.
  destruct (Z.eqb_spec (Type_ im) VIPS_INTERPRETATION_CMYK); [contradiction |].
  reflexivity.
Qed.

Hypothesis Hcmyk : Type_ im = VIPS_INTERPRETATION_CMYK.

Lemma path_too_long :
  strlen (nth 2 args "") > longest_base cfg ->
  run cfg env argv =
  (Returned CMYK2SRGBJPEG_FATAL_ERROR,
   finished (inspect_calls argv args im ++ [Call_g_object_unref])).
Proof.
  intros H. rewrite (run_positional _ _ _ _ Hstart). exec.
  rewrite Hargc. exec. rewrite Hopen. exec. rewrite Hcmyk. exec.
  destruct (Z.gtb_spec (strlen (nth 2 args "")) (longest_base cfg)); [| lia].
  reflexivity.
Qed.

Hypothesis Hfits : strlen (nth 2 args "") <= longest_base cfg.

Lemma path_transform_fails :
  vips_icc_transform env im
    (CMYK2SRGBJPEG_SRGB_ICM cfg) (CMYK2SRGBJPEG_BACKSTOP_CMYK_ICC cfg)
    (CMYK2SRGBJPEG_CONVERSION_INTENT cfg) true = None ->
  run cfg env argv =
  (Returned CMYK2SRGBJPEG_FATAL_ERROR,
   finished (inspect_calls argv args im ++ [transform_call cfg im None; Call_g_object_unref])).
Proof.
  intros H. rewrite (run_positional _ _ _ _ Hstart). exec.
  rewrite Hargc. exec. rewrite Hopen. exec. rewrite Hcmyk. exec.
  destruct (Z.gtb_spec (strlen (nth 2 args "")) (longest_base cfg)); [lia |].
  exec. rewrite H. reflexivity.
Qed.

Variable out : VipsImage.
Hypothesis Htransform :
  vips_icc_transform env im
    (CMYK2SRGBJPEG_SRGB_ICM cfg) (CMYK2SRGBJPEG_BACKSTOP_CMYK_ICC cfg)
    (CMYK2SRGBJPEG_CONVERSION_INTENT cfg) true = Some out.

Lemma path_write_fails :
  vips_image_write_to_file env out (output_filename cfg (nth 2 args "")) <> 0 ->
  run cfg env argv =
  (Returned CMYK2SRGBJPEG_FATAL_ERROR,
   finished (inspect_calls argv args im ++
             [transform_call cfg im (Some out);
              Call_vips_image_write_to_file out
                (output_filename cfg (nth 2 args ""))
                (vips_image_write_to_file env out
                   (output_filename cfg (nth 2 args "")));
              Call_g_object_unref])).
Proof.
  intros H. rewrite (run_positional _ _ _ _ Hstart). exec.
  rewrite Hargc. exec. rewrite Hopen. exec. rewrite Hcmyk. exec.
  destruct (Z.gtb_spec (strlen (nth 2 args "")) (longest_base cfg)); [lia |].
  exec. rewrite Htransform. exec.
  destruct (Z.eqb_spec (vips_image_write_to_file env out
                          (output_filename cfg (nth 2 args ""))) 0);
    [contradiction |].
  reflexivity.
Qed.

Lemma path_success :
  vips_image_write_to_file env out (output_filename cfg (nth 2 args "")) = 0 ->
  run cfg env argv =
  (Returned CMYK2SRGBJPEG_CMYK_WITH_USABLE_ICC,
   finished (inspect_calls argv args im ++
             [transform_call cfg im (Some out);
              Call_vips_image_write_to_file out
                (output_filename cfg (nth 2 args "")) 0;
              Call_g_object_unref])).
Proof.
  intros H. rewrite (run_positional _ _ _ _ Hstart). exec.
  rewrite Hargc. exec. rewrite Hopen. exec. rewrite Hcmyk. exec.
  destruct (Z.gtb_spec (strlen (nth 2 args "")) (longest_base cfg)); [lia |].
  exec. rewrite Htransform. exec. rewrite H. reflexivity.
Qed.

End Paths.

(** Every run falls under one case of the decision tree. *)
Lemma run_cases cfg env argv : RunCase cfg env argv.
Proof.
  destruct (Z.eq_dec (vips_init env (nth 0 argv "")) 0) as [Hi | Hi];
    [| now apply case_init_fails].
  destruct (g_option_context_parse env argv) as [args | error] eqn:Hp;
    [| now apply (case_parse_fails _ _ _ error)].
  assert (Hpos : positional env argv = Some args).
  { unfold positional. rewrite Hi, Hp. reflexivity. }
  destruct (Z.eq_dec (Z.of_nat (length args)) 3) as [Hargc | Hargc];
    [| now apply (case_bad_argc _ _ _ args)].
  destruct (vips_image_new_mode env (nth 1 args "") "rs") as [im |] eqn:Hopen;
    [| now apply (case_open_fails _ _ _ args)].
  destruct (Z.eq_dec (Type_ im) VIPS_INTERPRETATION_CMYK) as [Hc | Hc];
    [| now apply (case_not_cmyk _ _ _ args im)].
  destruct (Z_gt_le_dec (strlen (nth 2 args "")) (longest_base cfg))
    as [Hl | Hl]; [now apply (case_too_long _ _ _ args im) |].
  destruct (vips_icc_transform env im
              (CMYK2SRGBJPEG_SRGB_ICM cfg) (CMYK2SRGBJPEG_BACKSTOP_CMYK_ICC cfg)
              (CMYK2SRGBJPEG_CONVERSION_INTENT cfg) true) as [out |] eqn:Ht;
    [| now apply (case_transform_fails _ _ _ args im)].
  destruct (Z.eq_dec (vips_image_write_to_file env out
                        (output_filename cfg (nth 2 args ""))) 0) as [Hw | Hw].
  - now apply (case_success _ _ _ args im out).
  - now apply (case_write_fails _ _ _ args im out).
Qed.

(** What a successful conversion rests on, in terms of the answers of the
    environment. *)
Lemma conversion_succeeds_inv cfg env argv :
  conversion_succeeds cfg env argv ->
  exists args im out,
    positional env argv = Some args /\
    Z.of_nat (length args) = 3 /\
    vips_image_new_mode env (nth 1 args "") "rs" = Some im /\
    Type_ im = VIPS_INTERPRETATION_CMYK /\
    strlen (nth 2 args "") <= longest_base cfg /\
    vips_icc_transform env im
      (CMYK2SRGBJPEG_SRGB_ICM cfg) (CMYK2SRGBJPEG_BACKSTOP_CMYK_ICC cfg)
      (CMYK2SRGBJPEG_CONVERSION_INTENT cfg) true = Some out /\
    vips_image_write_to_file env out (output_filename cfg (nth 2 args "")) = 0.
Proof.
  intros (im & base & out & Hin & Hc & Hfit & Ht & Hw).
  apply opened_input_inv in Hin.
  destruct Hin as (args & Hpos & Hargc & Hopen & Hbase). subst base.
  exists args, im, out. repeat split; assumption.
Qed.

Lemma opened_input_intro env argv args im :
  positional env argv = Some args ->
  Z.of_nat (length args) = 3 ->
  vips_image_new_mode env (nth 1 args "") "rs" = Some im ->
  opened_input env argv = Some (im, nth 2 args "").
Proof.
  intros Hpos Hargc Hopen. unfold opened_input.
  rewrite Hpos, Hargc, Hopen. reflexivity.
Qed.

(* ===================================================================== *)
(** ** Arithmetic of the length check and of the file name               *)
(* ===================================================================== *)

(** For any sensible configuration the [size_t] expression of the length
    check does not wrap. *)
Lemma longest_base_plain cfg :
  strlen (CMYK2SRGBJPEG_JPEG_EXTENSION cfg) + 8 <= VIPS_PATH_MAX cfg ->
  VIPS_PATH_MAX cfg < 2 ^ size_t_bits ->
  longest_base cfg =
  VIPS_PATH_MAX cfg - (strlen (CMYK2SRGBJPEG_JPEG_EXTENSION cfg) + 8).
Proof.
  intros Hlo Hhi. unfold longest_base, size_sub, size_add, to_size_t.
  assert (0 <= strlen (CMYK2SRGBJPEG_JPEG_EXTENSION cfg))
    by (unfold strlen; lia).
  rewrite (Z.mod_small (VIPS_PATH_MAX cfg)) by lia.
  rewrite (Z.mod_small (strlen _ + 8)) by lia.
  apply Z.mod_small. lia.
Qed.

Lemma substring_all (s : string) (n : nat) :
  (String.length s <= n)%nat -> substring 0 n s = s.
Proof.
  revert n. induction s as [| c s IH]; intros n H.
  - destruct n; reflexivity.
  - destruct n as [| n]; cbn in H; [lia |].
    cbn. rewrite IH by lia. reflexivity.
Qed.

Lemma bounded_fits (size : Z) (s : string) :
  strlen s < size -> bounded size s = s.
Proof.
  intros H. unfold bounded. apply substring_all. unfold strlen in H. lia.
Qed.

Lemma strlen_append (a b : string) : strlen (a ++ b) = strlen a + strlen b.
Proof.
  unfold strlen. induction a as [| c a IH]; cbn [append String.length].
  - lia.
  - lia.
Qed.

Lemma strlen_formatted_name cfg base :
  strlen (formatted_name cfg base) =
  strlen base + strlen (CMYK2SRGBJPEG_JPEG_EXTENSION cfg) + 5
  + strlen (fmt_d (CMYK2SRGBJPEG_JPEG_QUALITY cfg)).
Proof.
  unfold formatted_name. rewrite !strlen_append.
  change (strlen ".") with 1. change (strlen "[Q=") with 3.
  change (strlen "]") with 1. lia.
Qed.

(** When the quality prints in at most two characters, a base that passes
    the length check is never cut by the bounded formatting. *)
Lemma output_filename_complete cfg base :
  strlen (CMYK2SRGBJPEG_JPEG_EXTENSION cfg) + 8 <= VIPS_PATH_MAX cfg ->
  VIPS_PATH_MAX cfg < 2 ^ size_t_bits ->
  strlen (fmt_d (CMYK2SRGBJPEG_JPEG_QUALITY cfg)) <= 2 ->
  strlen base <= longest_base cfg ->
  output_filename cfg base = formatted_name cfg base.
Proof.
  intros Hlo Hhi Hq Hfit. unfold output_filename.
  apply bounded_fits. rewrite strlen_formatted_name.
  rewrite longest_base_plain in Hfit by assumption. lia.
Qed.

(** As delivered (extension [jpg], quality 99): the name handed to the
    write step is the base followed by [.jpg[Q=99]]. *)
Lemma output_filename_as_delivered base :
  strlen base <= longest_base as_delivered ->
  output_filename as_delivered base = base ++ ".jpg[Q=99]".
Proof.
  intros H. rewrite output_filename_complete; try assumption.
  - reflexivity.
  - vm_compute. discriminate.
  - reflexivity.
  - vm_compute. discriminate.
Qed.

(* ===================================================================== *)
(** ** Properties of the driver                                          *)
(* ===================================================================== *)

(** C2. When the input opens and its colour interpretation is not the
    CMYK one, [main] returns CMYK2SRGBJPEG_PROBABLY_NOT_CMYK (0); the
    colour transform is never called, no write is attempted, and so no
    output file is produced. *)
Theorem not_cmyk_returns_0_writes_nothing cfg env argv im base :
  opened_input env argv = Some (im, base) ->
  vips_image_get_interpretation im <> VIPS_INTERPRETATION_CMYK ->
  outcome (run cfg env argv) = Returned 0 /\
  transforms (final (run cfg env argv)) = [] /\
  writes (final (run cfg env argv)) = [] /\
  output_produced (final (run cfg env argv)) = false.
Proof.
  intros Hin Hnot.
  apply opened_input_inv in Hin.
  destruct Hin as (args & Hpos & Hargc & Hopen & _).
  rewrite (path_not_cmyk cfg env argv args Hpos Hargc im Hopen Hnot).
  repeat split; reflexivity.
Qed.

Lemma not_cmyk_returns_0_writes_nothing_witness :
  outcome (run as_delivered Sample.world Sample.argv_rgb) = Returned 0 /\
  transforms (final (run as_delivered Sample.world Sample.argv_rgb)) = [] /\
  writes (final (run as_delivered Sample.world Sample.argv_rgb)) = [] /\
  output_produced (final (run as_delivered Sample.world Sample.argv_rgb)) = false.
Proof.
  apply (not_cmyk_returns_0_writes_nothing as_delivered Sample.world
           Sample.argv_rgb Sample.rgb_plain "out/photo").
  - reflexivity.
  - vm_compute. discriminate.
Defined.

(** C4. For a CMYK input whose output base is longer than
    [VIPS_PATH_MAX - (strlen( extension ) + 8)] (the [size_t] expression
    of the source), [main] returns CMYK2SRGBJPEG_FATAL_ERROR (1) and
    neither the transform nor the write step is called: nothing is
    written. *)
Theorem overlong_base_is_fatal cfg env argv im base :
  opened_input env argv = Some (im, base) ->
  vips_image_get_interpretation im = VIPS_INTERPRETATION_CMYK ->
  strlen base >
    size_sub (to_size_t (VIPS_PATH_MAX cfg))
             (size_add (strlen (CMYK2SRGBJPEG_JPEG_EXTENSION cfg)) 8) ->
  outcome (run cfg env argv) = Returned 1 /\
  transforms (final (run cfg env argv)) = [] /\
  writes (final (run cfg env argv)) = [] /\
  output_produced (final (run cfg env argv)) = false.
Proof.
  intros Hin Hcmyk Hlong.
  apply opened_input_inv in Hin.
  destruct Hin as (args & Hpos & Hargc & Hopen & Hbase). subst base.
  rewrite (path_too_long cfg env argv args Hpos Hargc im Hopen Hcmyk Hlong).
  repeat split; reflexivity.
Qed.

Lemma overlong_base_is_fatal_witness :
  let argv := ["cmyk2srgbjpeg"; "photo_cmyk.tif"; Sample.letters 4086] in
  outcome (run as_delivered Sample.world argv) = Returned 1 /\
  transforms (final (run as_delivered Sample.world argv)) = [] /\
  writes (final (run as_delivered Sample.world argv)) = [] /\
  output_produced (final (run as_delivered Sample.world argv)) = false.
Proof.
  intros argv.
  apply (overlong_base_is_fatal as_delivered Sample.world argv
           Sample.cmyk_plain (Sample.letters 4086)).
  - reflexivity.
  - reflexivity.
  - vm_compute. reflexivity.
Defined.

(** C5. When start-up leaves an argument vector that does not hold
    exactly two positional arguments ([argc != 3]), or the input image
    cannot be opened, [main] returns CMYK2SRGBJPEG_FATAL_ERROR (1), and no
    write is attempted: no output file is produced. *)
Theorem bad_arguments_or_open_failure_is_fatal cfg env argv args :
  positional env argv = Some args ->
  Z.of_nat (length args) <> 3 \/
  vips_image_new_mode env (nth 1 args "") "rs" = None ->
  outcome (run cfg env argv) = Returned 1 /\
  writes (final (run cfg env argv)) = [] /\
  output_produced (final (run cfg env argv)) = false.
Proof.
  intros Hpos Hbad.
  destruct (Z.eq_dec (Z.of_nat (length args)) 3) as [Hargc | Hargc].
  - destruct Hbad as [Hbad | Hbad]; [contradiction |].
    rewrite (path_open_fails cfg env argv args Hpos Hargc Hbad).
    repeat split; reflexivity.
  - rewrite (path_bad_argc cfg env argv args Hpos Hargc).
    repeat split; reflexivity.
Qed.

Lemma bad_arguments_or_open_failure_is_fatal_witness :
  (let argv := ["cmyk2srgbjpeg"; "photo_cmyk.tif"] in
   outcome (run as_delivered Sample.world argv) = Returned 1 /\
   writes (final (run as_delivered Sample.world argv)) = [] /\
   output_produced (final (run as_delivered Sample.world argv)) = false) /\
  (let argv := ["cmyk2srgbjpeg"; "missing.tif"; "out/photo"] in
   outcome (run as_delivered Sample.world argv) = Returned 1 /\
   writes (final (run as_delivered Sample.world argv)) = [] /\
   output_produced (final (run as_delivered Sample.world argv)) = false).
Proof.
  split; intros argv.
  - apply (bad_arguments_or_open_failure_is_fatal as_delivered Sample.world
             argv argv); [reflexivity | left; vm_compute; discriminate].
  - apply (bad_arguments_or_open_failure_is_fatal as_delivered Sample.world
             argv argv); [reflexivity | right; reflexivity].
Defined.

(** C10. For an input that is not CMYK the length of the output base is
    never looked at: even when it exceeds the limit of the length check,
    [main] returns 0 (CMYK2SRGBJPEG_PROBABLY_NOT_CMYK), not
    CMYK2SRGBJPEG_FATAL_ERROR. *)
Theorem not_cmyk_skips_length_check cfg env argv im base :
  opened_input env argv = Some (im, base) ->
  vips_image_get_interpretation im <> VIPS_INTERPRETATION_CMYK ->
  strlen base > longest_base cfg ->
  outcome (run cfg env argv) = Returned 0 /\
  outcome (run cfg env argv) <> Returned CMYK2SRGBJPEG_FATAL_ERROR.
Proof.
  intros Hin Hnot _.
  apply opened_input_inv in Hin.
  destruct Hin as (args & Hpos & Hargc & Hopen & _).
  rewrite (path_not_cmyk cfg env argv args Hpos Hargc im Hopen Hnot).
  split; [reflexivity | discriminate].
Qed.

Lemma not_cmyk_skips_length_check_witness :
  let argv := ["cmyk2srgbjpeg"; "photo_rgb.tif"; Sample.letters 5000] in
  outcome (run as_delivered Sample.world argv) = Returned 0 /\
  outcome (run as_delivered Sample.world argv)
    <> Returned CMYK2SRGBJPEG_FATAL_ERROR.
Proof.
  intros argv.
  apply (not_cmyk_skips_length_check as_delivered Sample.world argv
           Sample.rgb_plain (Sample.letters 5000)).
  - reflexivity.
  - vm_compute. discriminate.
  - vm_compute. reflexivity.
Defined.

(** C1. An output file is produced exactly when every step succeeds (the
    input is detected as CMYK, the length check passes, the colour
    transform and the write succeed); and when the transform fails after
    the output name has been computed, [main] returns the fatal status
    without calling the write step at all, so nothing partial is left. *)
Theorem output_iff_every_step_succeeds cfg env argv :
  (output_produced (final (run cfg env argv)) = true <->
   conversion_succeeds cfg env argv) /\
  (forall im base,
     opened_input env argv = Some (im, base) ->
     vips_image_get_interpretation im = VIPS_INTERPRETATION_CMYK ->
     strlen base <= longest_base cfg ->
     vips_icc_transform env im
       (CMYK2SRGBJPEG_SRGB_ICM cfg) (CMYK2SRGBJPEG_BACKSTOP_CMYK_ICC cfg)
       (CMYK2SRGBJPEG_CONVERSION_INTENT cfg) true = None ->
     outcome (run cfg env argv) = Returned CMYK2SRGBJPEG_FATAL_ERROR /\
     writes (final (run cfg env argv)) = []).
Proof.
  split.
  - split.
    + intros Hout.
      destruct (run_cases cfg env argv)
        as [Hi | error Hi Hp | args Hpos Hargc | args Hpos Hargc Hopen
            | args im Hpos Hargc Hopen Hc | args im Hpos Hargc Hopen Hc Hl
            | args im Hpos Hargc Hopen Hc Hl Ht
            | args im out Hpos Hargc Hopen Hc Hl Ht Hw
            | args im out Hpos Hargc Hopen Hc Hl Ht Hw].
      * rewrite (path_init_fails cfg env argv Hi) in Hout. discriminate.
      * destruct (path_parse_fails cfg env argv error Hi Hp) as (_ & _ & Hcalls).
        unfold output_produced, writes in Hout. rewrite Hcalls in Hout.
        destruct error; discriminate.
      * rewrite (path_bad_argc cfg env argv args Hpos Hargc) in Hout.
        discriminate.
      * rewrite (path_open_fails cfg env argv args Hpos Hargc Hopen) in Hout.
        discriminate.
      * rewrite (path_not_cmyk cfg env argv args Hpos Hargc im Hopen Hc) in Hout.
        discriminate.
      * rewrite (path_too_long cfg env argv args Hpos Hargc im Hopen Hc Hl)
          in Hout.
        discriminate.
      * rewrite (path_transform_fails cfg env argv args Hpos Hargc im Hopen
                   Hc Hl Ht) in Hout.
        discriminate.
      * rewrite (path_write_fails cfg env argv args Hpos Hargc im Hopen
                   Hc Hl out Ht Hw) in Hout.
        unfold output_produced, final, writes in Hout. cbn in Hout.
        rewrite orb_false_r in Hout.
        apply Z.eqb_eq in Hout. contradiction.
      * exists im, (nth 2 args ""), out.
        split; [now apply opened_input_intro |].
        repeat split; assumption.
    + intros Hok. apply conversion_succeeds_inv in Hok.
      destruct Hok as (args & im & out & Hpos & Hargc & Hopen & Hc & Hl
                       & Ht & Hw).
      rewrite (path_success cfg env argv args Hpos Hargc im Hopen Hc Hl
                 out Ht Hw).
      reflexivity.
  - intros im base Hin Hc Hl Ht.
    apply opened_input_inv in Hin.
    destruct Hin as (args & Hpos & Hargc & Hopen & Hbase). subst base.
    rewrite (path_transform_fails cfg env argv args Hpos Hargc im Hopen
               Hc Hl Ht).
    split; reflexivity.
Qed.

Lemma output_iff_every_step_succeeds_witness :
  output_produced (final (run as_delivered Sample.world Sample.argv_cmyk))
    = true /\
  (outcome (run as_delivered Sample.world_no_transform Sample.argv_cmyk)
     = Returned CMYK2SRGBJPEG_FATAL_ERROR /\
   writes (final (run as_delivered Sample.world_no_transform Sample.argv_cmyk))
     = []).
Proof.
  split.
  - apply (proj1 (output_iff_every_step_succeeds as_delivered Sample.world
                    Sample.argv_cmyk)).
    exists Sample.cmyk_plain, "out/photo", (Sample.to_srgb Sample.cmyk_plain).
    repeat split; try reflexivity. vm_compute. discriminate.
  - apply (proj2 (output_iff_every_step_succeeds as_delivered
                    Sample.world_no_transform Sample.argv_cmyk)
             Sample.cmyk_plain "out/photo").
    + reflexivity.
    + reflexivity.
    + vm_compute. discriminate.
    + reflexivity.
Defined.

(** C7. Every run in which [main] returns a status code (open failure or
    wrong argument count, input not CMYK, output base too long, transform
    failure, write failure, success) has acquired the image context and
    has released it: no reference is left on [global], its local array is
    gone, [g_object_unref] was called once and it is the last call before
    the [return].  The only other way out, [vips_error_exit] during
    start-up, is taken before the context is acquired. *)
Theorem context_released_before_every_return cfg env argv :
  match outcome (run cfg env argv) with
  | Returned _ =>
      acquired (final (run cfg env argv)) = true /\
      released (final (run cfg env argv))
  | ErrorExit _ =>
      acquired (final (run cfg env argv)) = false
  end.
Proof.
  destruct (run_cases cfg env argv)
    as [Hi | error Hi Hp | args Hpos Hargc | args Hpos Hargc Hopen
        | args im Hpos Hargc Hopen Hc | args im Hpos Hargc Hopen Hc Hl
        | args im Hpos Hargc Hopen Hc Hl Ht
        | args im out Hpos Hargc Hopen Hc Hl Ht Hw
        | args im out Hpos Hargc Hopen Hc Hl Ht Hw].
  - rewrite (path_init_fails cfg env argv Hi). reflexivity.
  - destruct (path_parse_fails cfg env argv error Hi Hp) as (Ho & _ & Hcalls).
    rewrite Ho. unfold acquired. rewrite Hcalls.
    destruct error; reflexivity.
  - rewrite (path_bad_argc cfg env argv args Hpos Hargc).
    repeat split; reflexivity.
  - rewrite (path_open_fails cfg env argv args Hpos Hargc Hopen).
    repeat split; reflexivity.
  - rewrite (path_not_cmyk cfg env argv args Hpos Hargc im Hopen Hc).
    repeat split; reflexivity.
  - rewrite (path_too_long cfg env argv args Hpos Hargc im Hopen Hc Hl).
    repeat split; reflexivity.
  - rewrite (path_transform_fails cfg env argv args Hpos Hargc im Hopen
               Hc Hl Ht).
    repeat split; reflexivity.
  - rewrite (path_write_fails cfg env argv args Hpos Hargc im Hopen
               Hc Hl out Ht Hw).
    repeat split; reflexivity.
  - rewrite (path_success cfg env argv args Hpos Hargc im Hopen
               Hc Hl out Ht Hw).
    repeat split; reflexivity.
Qed.

(** The file name of every write call is the bounded formatting of the
    second positional argument. *)
Lemma write_step_gets_output_filename cfg env argv im f rc :
  In (im, f, rc) (writes (final (run cfg env argv))) ->
  exists args,
    positional env argv = Some args /\
    f = output_filename cfg (nth 2 args "").
Proof.
  intros Hin.
  destruct (run_cases cfg env argv)
    as [Hi | error Hi Hp | args Hpos Hargc | args Hpos Hargc Hopen
        | args im' Hpos Hargc Hopen Hc | args im' Hpos Hargc Hopen Hc Hl
        | args im' Hpos Hargc Hopen Hc Hl Ht
        | args im' out Hpos Hargc Hopen Hc Hl Ht Hw
        | args im' out Hpos Hargc Hopen Hc Hl Ht Hw].
  - rewrite (path_init_fails cfg env argv Hi) in Hin. destruct Hin.
  - destruct (path_parse_fails cfg env argv error Hi Hp) as (_ & _ & Hcalls).
    unfold writes in Hin. rewrite Hcalls in Hin.
    destruct error; destruct Hin.
  - rewrite (path_bad_argc cfg env argv args Hpos Hargc) in Hin. destruct Hin.
  - rewrite (path_open_fails cfg env argv args Hpos Hargc Hopen) in Hin.
    destruct Hin.
  - rewrite (path_not_cmyk cfg env argv args Hpos Hargc im' Hopen Hc) in Hin.
    destruct Hin.
  - rewrite (path_too_long cfg env argv args Hpos Hargc im' Hopen Hc Hl) in Hin.
    destruct Hin.
  - rewrite (path_transform_fails cfg env argv args Hpos Hargc im' Hopen
               Hc Hl Ht) in Hin.
    destruct Hin.
  - rewrite (path_write_fails cfg env argv args Hpos Hargc im' Hopen
               Hc Hl out Ht Hw) in Hin.
    destruct Hin as [E | []]. inversion E; subst. exists args. auto.
  - rewrite (path_success cfg env argv args Hpos Hargc im' Hopen
               Hc Hl out Ht Hw) in Hin.
    destruct Hin as [E | []]. inversion E; subst. exists args. auto.
Qed.

(** A write call is only reached with a base that passed the length
    check. *)
Lemma write_step_after_length_check cfg env argv args :
  positional env argv = Some args ->
  writes (final (run cfg env argv)) <> [] ->
  strlen (nth 2 args "") <= longest_base cfg.
Proof.
  intros Hpos Hw.
  destruct (Z_gt_le_dec (strlen (nth 2 args "")) (longest_base cfg))
    as [Hl | Hl]; [| assumption].
  exfalso. apply Hw.
  destruct (Z.eq_dec (Z.of_nat (length args)) 3) as [Hargc | Hargc].
  - destruct (vips_image_new_mode env (nth 1 args "") "rs") as [im |] eqn:Hopen.
    + destruct (Z.eq_dec (Type_ im) VIPS_INTERPRETATION_CMYK) as [Hc | Hc].
      * rewrite (path_too_long cfg env argv args Hpos Hargc im Hopen Hc Hl).
        reflexivity.
      * rewrite (path_not_cmyk cfg env argv args Hpos Hargc im Hopen Hc).
        reflexivity.
    + rewrite (path_open_fails cfg env argv args Hpos Hargc Hopen).
      reflexivity.
  - rewrite (path_bad_argc cfg env argv args Hpos Hargc). reflexivity.
Qed.

(** With the quality printing in at most two characters (as delivered:
    99), the write step is handed the base, a period, the extension and
    the quality specifier, complete. *)
Lemma handed_name_for_two_digit_quality cfg env argv im f rc :
  strlen (CMYK2SRGBJPEG_JPEG_EXTENSION cfg) + 8 <= VIPS_PATH_MAX cfg ->
  VIPS_PATH_MAX cfg < 2 ^ size_t_bits ->
  strlen (fmt_d (CMYK2SRGBJPEG_JPEG_QUALITY cfg)) <= 2 ->
  In (im, f, rc) (writes (final (run cfg env argv))) ->
  exists args,
    positional env argv = Some args /\
    f = formatted_name cfg (nth 2 args "").
Proof.
  intros Hlo Hhi Hq Hin.
  destruct (write_step_gets_output_filename _ _ _ _ _ _ Hin)
    as (args & Hpos & Hf).
  exists args. split; [assumption |].
  rewrite Hf. apply output_filename_complete; try assumption.
  apply (write_step_after_length_check cfg env argv args Hpos).
  intros E. rewrite E in Hin. destruct Hin.
Qed.

(** No run returns CMYK2SRGBJPEG_CMYK_WITH_UNUSABLE_ICC (2) or
    CMYK2SRGBJPEG_CMYK_NO_ICC (3): a conversion that succeeds returns
    CMYK2SRGBJPEG_CMYK_WITH_USABLE_ICC whatever the embedded profile. *)
Lemma success_status_is_always_4 cfg env argv :
  conversion_succeeds cfg env argv ->
  outcome (run cfg env argv) = Returned CMYK2SRGBJPEG_CMYK_WITH_USABLE_ICC.
Proof.
  intros Hok. apply conversion_succeeds_inv in Hok.
  destruct Hok as (args & im & out & Hpos & Hargc & Hopen & Hc & Hl & Ht & Hw).
  rewrite (path_success cfg env argv args Hpos Hargc im Hopen Hc Hl out Ht Hw).
  reflexivity.
Qed.

Lemma never_returns_2_or_3 cfg env argv :
  outcome (run cfg env argv) <> Returned CMYK2SRGBJPEG_CMYK_WITH_UNUSABLE_ICC /\
  outcome (run cfg env argv) <> Returned CMYK2SRGBJPEG_CMYK_NO_ICC.
Proof.
  destruct (run_cases cfg env argv)
    as [Hi | error Hi Hp | args Hpos Hargc | args Hpos Hargc Hopen
        | args im Hpos Hargc Hopen Hc | args im Hpos Hargc Hopen Hc Hl
        | args im Hpos Hargc Hopen Hc Hl Ht
        | args im out Hpos Hargc Hopen Hc Hl Ht Hw
        | args im out Hpos Hargc Hopen Hc Hl Ht Hw].
  - rewrite (path_init_fails cfg env argv Hi). split; discriminate.
  - destruct (path_parse_fails cfg env argv error Hi Hp) as (Ho & _).
    rewrite Ho. split; discriminate.
  - rewrite (path_bad_argc cfg env argv args Hpos Hargc). split; discriminate.
  - rewrite (path_open_fails cfg env argv args Hpos Hargc Hopen).
    split; discriminate.
  - rewrite (path_not_cmyk cfg env argv args Hpos Hargc im Hopen Hc).
    split; discriminate.
  - rewrite (path_too_long cfg env argv args Hpos Hargc im Hopen Hc Hl).
    split; discriminate.
  - rewrite (path_transform_fails cfg env argv args Hpos Hargc im Hopen
               Hc Hl Ht).
    split; discriminate.
  - rewrite (path_write_fails cfg env argv args Hpos Hargc im Hopen
               Hc Hl out Ht Hw).
    split; discriminate.
  - rewrite (path_success cfg env argv args Hpos Hargc im Hopen
               Hc Hl out Ht Hw).
    split; discriminate.
Qed.

(** C3. A CMYK image with no embedded ICC profile, converted with every
    step succeeding: the backstop profile is passed to the transform as
    the input profile, but [main] returns 4
    (CMYK2SRGBJPEG_CMYK_WITH_USABLE_ICC), not 3
    (CMYK2SRGBJPEG_CMYK_NO_ICC). *)
Theorem cmyk_without_profile_returns_4 :
  opened_input Sample.world Sample.argv_cmyk
    = Some (Sample.cmyk_plain, "out/photo") /\
  vips_image_get_interpretation Sample.cmyk_plain = VIPS_INTERPRETATION_CMYK /\
  IccProfile Sample.cmyk_plain = None /\
  transforms (final (run as_delivered Sample.world Sample.argv_cmyk))
    = [Sample.cmyk_plain] /\
  output_produced (final (run as_delivered Sample.world Sample.argv_cmyk))
    = true /\
  outcome (run as_delivered Sample.world Sample.argv_cmyk) = Returned 4 /\
  outcome (run as_delivered Sample.world Sample.argv_cmyk)
    <> Returned CMYK2SRGBJPEG_CMYK_NO_ICC.
Proof.
  repeat split; try reflexivity. vm_compute. discriminate.
Qed.

(** C6. Built with quality 100 and given an output base of the longest
    length that passes the length check (4085 characters for
    [VIPS_PATH_MAX] 4096 and extension [jpg]), the file name handed to
    the write step is cut one character short: it ends in [.jpg[Q=100]
    without the closing bracket, and so differs from base, period,
    extension and quality specifier. *)
Theorem quality_100_name_is_cut_short :
  opened_input Sample.world Sample.argv_longest
    = Some (Sample.cmyk_plain, Sample.letters 4085) /\
  strlen (Sample.letters 4085) <= longest_base Sample.quality_100 /\
  map (fun w => snd (fst w))
      (writes (final (run Sample.quality_100 Sample.world Sample.argv_longest)))
    = [Sample.letters 4085 ++ ".jpg[Q=100"] /\
  formatted_name Sample.quality_100 (Sample.letters 4085)
    = Sample.letters 4085 ++ ".jpg[Q=100]" /\
  Sample.letters 4085 ++ ".jpg[Q=100"
    <> formatted_name Sample.quality_100 (Sample.letters 4085).
Proof.
  split; [| split; [| split; [| split]]].
  - vm_compute. reflexivity.
  - vm_compute. discriminate.
  - vm_compute. reflexivity.
  - vm_compute. reflexivity.
  - intros E. apply (f_equal String.length) in E.
    vm_compute in E. discriminate.
Qed.

(** C8. With arguments [a.jpg] and [a] the converted image is to go to
    [a.jpg], the input itself.  [main] makes no comparison of the two
    paths: it hands [a.jpg[Q=99]] to the write step and returns 4. *)
Theorem output_onto_input_is_written :
  output_path as_delivered (nth 2 Sample.argv_onto_input "")
    = nth 1 Sample.argv_onto_input "" /\
  opened_input Sample.world Sample.argv_onto_input
    = Some (Sample.cmyk_plain, "a") /\
  writes (final (run as_delivered Sample.world Sample.argv_onto_input))
    = [(Sample.to_srgb Sample.cmyk_plain, "a.jpg[Q=99]", 0)] /\
  output_produced (final (run as_delivered Sample.world Sample.argv_onto_input))
    = true /\
  outcome (run as_delivered Sample.world Sample.argv_onto_input) = Returned 4.
Proof.
  repeat split; reflexivity.
Qed.

(* ===================================================================== *)
(** ** [main] as a relation                                              *)
(* ===================================================================== *)

Lemma path_parse_fails_run cfg env argv error :
  vips_init env (nth 0 argv "") = 0 ->
  g_option_context_parse env argv = inr error ->
  run cfg env argv =
  (ErrorExit (try_help env),
   {| global_refs := 0; t := [];
      calls := (parse_calls argv (inr error) ++
                match error with
                | Some message =>
                    [Call_fprintf_stderr message; Call_g_error_free]
                | None => []
                end)%list |}).
Proof.
  intros Hi Hp. unfold run, main, call_vips_init, call_g_option_context_parse.
  exec. rewrite Hi. exec. rewrite Hp.
  destruct error; reflexivity.
Qed.

Lemma positional_init_fails env argv :
  vips_init env (nth 0 argv "") <> 0 -> positional env argv = None.
Proof.
  intros H. unfold positional.
  destruct (Z.eqb_spec (vips_init env (nth 0 argv "")) 0);
    [contradiction | reflexivity].
Qed.

Lemma positional_parse_fails env argv error :
  g_option_context_parse env argv = inr error -> positional env argv = None.
Proof.
  intros H. unfold positional. rewrite H.
  destruct (vips_init env (nth 0 argv "") =? 0); reflexivity.
Qed.

Lemma opened_input_no_start env argv :
  positional env argv = None -> opened_input env argv = None.
Proof.
  intros H. unfold opened_input. rewrite H. reflexivity.
Qed.

Lemma opened_input_bad_argc env argv args :
  positional env argv = Some args ->
  Z.of_nat (length args) <> 3 -> opened_input env argv = None.
Proof.
  intros Hpos H. unfold opened_input. rewrite Hpos.
  destruct (Z.eqb_spec (Z.of_nat (length args)) 3);
    [contradiction | reflexivity].
Qed.

Lemma opened_input_open_fails env argv args :
  positional env argv = Some args ->
  vips_image_new_mode env (nth 1 args "") "rs" = None ->
  opened_input env argv = None.
Proof.
  intros Hpos H. unfold opened_input. rewrite Hpos, H.
  destruct (Z.of_nat (length args) =? 3); reflexivity.
Qed.

(** Every run ends in one of the nine ways of [Ends]. *)
Lemma run_ends cfg env argv : Ends cfg env argv (run cfg env argv).
Proof.
  destruct (run_cases cfg env argv)
    as [Hi | error Hi Hp | args Hpos Hargc | args Hpos Hargc Hopen
        | args im Hpos Hargc Hopen Hc | args im Hpos Hargc Hopen Hc Hl
        | args im Hpos Hargc Hopen Hc Hl Ht
        | args im out Hpos Hargc Hopen Hc Hl Ht Hw
        | args im out Hpos Hargc Hopen Hc Hl Ht Hw].
  - rewrite (path_init_fails cfg env argv Hi).
    apply ends_init_fails; [assumption | |].
    + now apply positional_init_fails.
    + now apply opened_input_no_start, positional_init_fails.
  - rewrite (path_parse_fails_run cfg env argv error Hi Hp).
    apply ends_parse_fails; [assumption | assumption | |].
    + now apply (positional_parse_fails env argv error).
    + now apply opened_input_no_start, (positional_parse_fails env argv error).
  - rewrite (path_bad_argc cfg env argv args Hpos Hargc).
    apply ends_bad_argc; [assumption | assumption |].
    now apply (opened_input_bad_argc env argv args).
  - rewrite (path_open_fails cfg env argv args Hpos Hargc Hopen).
    apply ends_open_fails; [assumption | assumption | assumption |].
    now apply (opened_input_open_fails env argv args).
  - rewrite (path_not_cmyk cfg env argv args Hpos Hargc im Hopen Hc).
    apply ends_not_cmyk; [assumption | assumption | | assumption].
    now apply opened_input_intro.
  - rewrite (path_too_long cfg env argv args Hpos Hargc im Hopen Hc Hl).
    apply ends_too_long; [assumption | assumption | | assumption | assumption].
    now apply opened_input_intro.
  - rewrite (path_transform_fails cfg env argv args Hpos Hargc im Hopen
               Hc Hl Ht).
    apply ends_transform_fails; try assumption.
    now apply opened_input_intro.
  - rewrite (path_write_fails cfg env argv args Hpos Hargc im Hopen
               Hc Hl out Ht Hw).
    apply ends_write_fails; try assumption.
    now apply opened_input_intro.
  - rewrite (path_success cfg env argv args Hpos Hargc im Hopen
               Hc Hl out Ht Hw).
    apply ends_success; try assumption.
    now apply opened_input_intro.
Qed.

(* ===================================================================== *)
(** ** What the status code and the record of calls tell                 *)
(* ===================================================================== *)

(** X1. Whenever [main] returns, the status code is 0, 1 or 4: the codes
    2 and 3 of the configuration are returned on no path. *)
Theorem status_is_0_1_or_4 cfg env argv code :
  outcome (run cfg env argv) = Returned code ->
  code = 0 \/ code = 1 \/ code = 4.
Proof.
  generalize (run_ends cfg env argv). generalize (run cfg env argv).
  intros r Hr. destruct Hr; cbn; intros E; inversion E; auto.
Qed.

Lemma status_is_0_1_or_4_witness : 4 = 0 \/ 4 = 1 \/ 4 = 4.
Proof.
  apply (status_is_0_1_or_4 as_delivered Sample.world Sample.argv_cmyk 4).
  reflexivity.
Defined.

(** X2. The status is 4 exactly when the write step was called and
    returned 0: a caller can tell from the status alone whether an output
    file was produced. *)
Theorem status_4_iff_output_produced cfg env argv :
  outcome (run cfg env argv) = Returned CMYK2SRGBJPEG_CMYK_WITH_USABLE_ICC <->
  output_produced (final (run cfg env argv)) = true.
Proof.
  generalize (run_ends cfg env argv). generalize (run cfg env argv).
  intros r Hr.
  destruct Hr as [ | error | | | | | | args im out Hpos Hargc Hin Hc Hl Ht Hw | ];
    try (split; intros E; discriminate E);
    try (split; reflexivity).
  - destruct error; split; intros E; discriminate E.
  - split; [intros E; discriminate E |].
    unfold output_produced, final, writes. cbn.
    rewrite orb_false_r. intros E. apply Z.eqb_eq in E. contradiction.
Qed.

Lemma status_4_iff_output_produced_witness :
  outcome (run as_delivered Sample.world Sample.argv_cmyk)
    = Returned CMYK2SRGBJPEG_CMYK_WITH_USABLE_ICC.
Proof.
  apply (proj2 (status_4_iff_output_produced as_delivered Sample.world
                  Sample.argv_cmyk)).
  reflexivity.
Defined.

(** X3. The status is 0 exactly when the input opened and its colour
    interpretation is not the CMYK one: 0 is never returned for a CMYK
    input, nor when the arguments are wrong or the input cannot be
    opened. *)
Theorem status_0_iff_opened_not_cmyk cfg env argv :
  outcome (run cfg env argv) = Returned CMYK2SRGBJPEG_PROBABLY_NOT_CMYK <->
  exists im base,
    opened_input env argv = Some (im, base) /\
    vips_image_get_interpretation im <> VIPS_INTERPRETATION_CMYK.
Proof.
  generalize (run_ends cfg env argv). generalize (run cfg env argv).
  intros r Hr.
  destruct Hr as
    [Hi Hpos Hin | error Hi Hp Hpos Hin | args Hpos Hargc Hin
     | args Hpos Hargc Hopen Hin | args im Hpos Hargc Hin Hc
     | args im Hpos Hargc Hin Hc Hl | args im Hpos Hargc Hin Hc Hl Ht
     | args im out Hpos Hargc Hin Hc Hl Ht Hw
     | args im out Hpos Hargc Hin Hc Hl Ht Hw];
    cbn; (split; [intros E | intros (im' & base' & Hin' & Hc')]);
    try discriminate E;
    try (rewrite Hin in Hin'; discriminate Hin');
    try (rewrite Hin in Hin'; inversion Hin'; subst; contradiction).
  - exists im, (nth 2 args ""). split; assumption.
  - reflexivity.
Qed.

Lemma status_0_iff_opened_not_cmyk_witness :
  outcome (run as_delivered Sample.world Sample.argv_rgb)
    = Returned CMYK2SRGBJPEG_PROBABLY_NOT_CMYK.
Proof.
  apply (proj2 (status_0_iff_opened_not_cmyk as_delivered Sample.world
                  Sample.argv_rgb)).
  exists Sample.rgb_plain, "out/photo".
  split; [reflexivity | vm_compute; discriminate].
Defined.

(** X4. The status is 1 exactly when start-up succeeded and one step
    failed: the argument count is wrong, the input does not open, or, for
    a CMYK input, the output base is too long, the transform fails or the
    write fails. *)
Theorem status_1_iff_a_step_fails cfg env argv :
  outcome (run cfg env argv) = Returned CMYK2SRGBJPEG_FATAL_ERROR <->
  a_step_fails cfg env argv.
Proof.
  generalize (run_ends cfg env argv). generalize (run cfg env argv).
  intros r Hr.
  destruct Hr as
    [Hi Hpos Hin | error Hi Hp Hpos Hin | args Hpos Hargc Hin
     | args Hpos Hargc Hopen Hin | args im Hpos Hargc Hin Hc
     | args im Hpos Hargc Hin Hc Hl | args im Hpos Hargc Hin Hc Hl Ht
     | args im out Hpos Hargc Hin Hc Hl Ht Hw
     | args im out Hpos Hargc Hin Hc Hl Ht Hw];
    cbn; (split; [intros E | intros (args' & Hpos' & Hfail)]);
    try discriminate E;
    try (rewrite Hpos in Hpos'; discriminate Hpos');
    try (rewrite Hpos in Hpos'; inversion Hpos'; subst args');
    try reflexivity.
  - exists args. split; [assumption | left; assumption].
  - exists args. split; [assumption |]. right. split; [assumption |].
    left. assumption.
  - apply opened_input_inv in Hin.
    destruct Hin as (a & Ha & _ & Hopen & _).
    rewrite Hpos in Ha. inversion Ha; subst a.
    destruct Hfail as [Hn | (_ & [Hnone | (im' & Hopen' & Hc' & _)])].
    + contradiction.
    + rewrite Hopen in Hnone. discriminate.
    + rewrite Hopen in Hopen'. inversion Hopen'; subst im'. contradiction.
  - apply opened_input_inv in Hin.
    destruct Hin as (a & Ha & _ & Hopen & _).
    rewrite Hpos in Ha. inversion Ha; subst a.
    exists args. split; [assumption |]. right. split; [assumption |].
    right. exists im. split; [assumption |]. split; [assumption |].
    left. assumption.
  - apply opened_input_inv in Hin.
    destruct Hin as (a & Ha & _ & Hopen & _).
    rewrite Hpos in Ha. inversion Ha; subst a.
    exists args. split; [assumption |]. right. split; [assumption |].
    right. exists im. split; [assumption |]. split; [assumption |].
    right. split; [assumption |]. left. assumption.
  - apply opened_input_inv in Hin.
    destruct Hin as (a & Ha & _ & Hopen & _).
    rewrite Hpos in Ha. inversion Ha; subst a.
    exists args. split; [assumption |]. right. split; [assumption |].
    right. exists im. split; [assumption |]. split; [assumption |].
    right. split; [assumption |]. right. exists out. split; assumption.
  - apply opened_input_inv in Hin.
    destruct Hin as (a & Ha & _ & Hopen & _).
    rewrite Hpos in Ha. inversion Ha; subst a.
    destruct Hfail as [Hn | (_ & [Hnone | (im' & Hopen' & Hc' & Hrest)])].
    + contradiction.
    + rewrite Hopen in Hnone. discriminate.
    + rewrite Hopen in Hopen'. inversion Hopen'; subst im'.
      destruct Hrest as [Hlong | (_ & [Hnone | (out' & Ht' & Hw')])].
      * lia.
      * rewrite Ht in Hnone. discriminate.
      * rewrite Ht in Ht'. inversion Ht'; subst out'. contradiction.
Qed.

Lemma status_1_iff_a_step_fails_witness :
  outcome (run as_delivered Sample.world_no_transform Sample.argv_cmyk)
    = Returned CMYK2SRGBJPEG_FATAL_ERROR.
Proof.
  apply (proj2 (status_1_iff_a_step_fails as_delivered
                  Sample.world_no_transform Sample.argv_cmyk)).
  exists Sample.argv_cmyk. split; [reflexivity |].
  right. split; [reflexivity |]. right.
  exists Sample.cmyk_plain. split; [reflexivity |]. split; [reflexivity |].
  right. split; [vm_compute; discriminate |]. left. reflexivity.
Defined.

(** X5. A run ends in [vips_error_exit] exactly when start-up fails
    ([vips_init] returns nonzero or the option parse returns FALSE); such
    a run has not acquired the image context, has opened no file, and has
    called neither the transform nor the write step. *)
Theorem error_exit_iff_startup_fails cfg env argv :
  ((exists msg, outcome (run cfg env argv) = ErrorExit msg) <->
   positional env argv = None) /\
  (positional env argv = None ->
   acquired (final (run cfg env argv)) = false /\
   opens (final (run cfg env argv)) = [] /\
   transforms (final (run cfg env argv)) = [] /\
   writes (final (run cfg env argv)) = []).
Proof.
  generalize (run_ends cfg env argv). generalize (run cfg env argv).
  intros r Hr.
  destruct Hr as
    [Hi Hpos Hin | error Hi Hp Hpos Hin | args Hpos Hargc Hin
     | args Hpos Hargc Hopen Hin | args im Hpos Hargc Hin Hc
     | args im Hpos Hargc Hin Hc Hl | args im Hpos Hargc Hin Hc Hl Ht
     | args im out Hpos Hargc Hin Hc Hl Ht Hw
     | args im out Hpos Hargc Hin Hc Hl Ht Hw];
    cbn [outcome final fst snd];
    (split; [split; [intros (msg & E) | intros E] | intros E]);
    try discriminate E; try (rewrite Hpos in E; discriminate E);
    try assumption.
  - eexists. reflexivity.
  - repeat split; reflexivity.
  - eexists. reflexivity.
  - destruct error; repeat split; reflexivity.
Qed.

Lemma error_exit_iff_startup_fails_witness :
  let broken := {|
    vips_init := fun _ => -1;
    g_option_context_parse := g_option_context_parse Sample.world;
    g_get_prgname := g_get_prgname Sample.world;
    vips_image_new_mode := vips_image_new_mode Sample.world;
    vips_icc_transform := vips_icc_transform Sample.world;
    vips_image_write_to_file := vips_image_write_to_file Sample.world;
    saved_bytes := saved_bytes Sample.world |} in
  acquired (final (run as_delivered broken Sample.argv_cmyk)) = false /\
  opens (final (run as_delivered broken Sample.argv_cmyk)) = [] /\
  transforms (final (run as_delivered broken Sample.argv_cmyk)) = [] /\
  writes (final (run as_delivered broken Sample.argv_cmyk)) = [].
Proof.
  intros broken.
  apply (proj2 (error_exit_iff_startup_fails as_delivered broken
                  Sample.argv_cmyk)).
  reflexivity.
Defined.

(** X6. [main] opens at most one file, the first positional argument, in
    mode [rs]; with a wrong argument count it opens none (the [||] of the
    test does not reach [vips_image_new_mode]). *)
Theorem opens_only_the_first_argument cfg env argv :
  opens (final (run cfg env argv)) =
  match positional env argv with
  | Some args =>
      if Z.of_nat (length args) =? 3 then [(nth 1 args "", "rs")] else []
  | None => []
  end.
Proof.
  generalize (run_ends cfg env argv). generalize (run cfg env argv).
  intros r Hr.
  destruct Hr as
    [Hi Hpos Hin | error Hi Hp Hpos Hin | args Hpos Hargc Hin
     | args Hpos Hargc Hopen Hin | args im Hpos Hargc Hin Hc
     | args im Hpos Hargc Hin Hc Hl | args im Hpos Hargc Hin Hc Hl Ht
     | args im out Hpos Hargc Hin Hc Hl Ht Hw
     | args im out Hpos Hargc Hin Hc Hl Ht Hw];
    rewrite Hpos; try rewrite Hargc; try reflexivity.
  - destruct error; reflexivity.
  - destruct (Z.eqb_spec (Z.of_nat (length args)) 3);
      [contradiction | reflexivity].
Qed.

(** X7. The only text [main] itself prints on [stderr] is the [GError]
    message of a failed option parse; on every path that returns a
    status code, and when [vips_init] fails, it prints nothing. *)
Theorem stderr_only_on_parse_error cfg env argv :
  stderr_lines (final (run cfg env argv)) =
  if vips_init env (nth 0 argv "") =? 0 then
    match g_option_context_parse env argv with
    | inr (Some message) => [message]
    | _ => []
    end
  else [].
Proof.
  generalize (run_ends cfg env argv). generalize (run cfg env argv).
  intros r Hr.
  destruct Hr as
    [Hi Hpos Hin | error Hi Hp Hpos Hin | args Hpos Hargc Hin
     | args Hpos Hargc Hopen Hin | args im Hpos Hargc Hin Hc
     | args im Hpos Hargc Hin Hc Hl | args im Hpos Hargc Hin Hc Hl Ht
     | args im out Hpos Hargc Hin Hc Hl Ht Hw
     | args im out Hpos Hargc Hin Hc Hl Ht Hw];
    try (apply positional_inv in Hpos; destruct Hpos as [Hi Hp]);
    try (rewrite Hi, Hp; reflexivity).
  - destruct (Z.eqb_spec (vips_init env (nth 0 argv "")) 0);
      [contradiction | reflexivity].
  - rewrite Hi, Hp. destruct error; reflexivity.
Qed.

(** X8. The colour transform is called at most once, and only on the
    opened input when it is CMYK and the output base has passed the
    length check; it is always given the sRGB profile as output profile,
    the backstop CMYK profile as input profile, the configured intent and
    [embedded] TRUE. *)
Theorem transform_call_arguments cfg env argv im o i n e res :
  In (Call_vips_icc_transform im o i n e res)
     (calls (final (run cfg env argv))) ->
  o = CMYK2SRGBJPEG_SRGB_ICM cfg /\
  i = CMYK2SRGBJPEG_BACKSTOP_CMYK_ICC cfg /\
  n = CMYK2SRGBJPEG_CONVERSION_INTENT cfg /\
  e = true /\
  vips_image_get_interpretation im = VIPS_INTERPRETATION_CMYK /\
  (exists base,
     opened_input env argv = Some (im, base) /\
     strlen base <= longest_base cfg) /\
  transforms (final (run cfg env argv)) = [im].
Proof.
  generalize (run_ends cfg env argv). generalize (run cfg env argv).
  intros r Hr.
  destruct Hr as
    [Hi Hpos Hin | error Hi Hp Hpos Hin | args Hpos Hargc Hin
     | args Hpos Hargc Hopen Hin | args im0 Hpos Hargc Hin Hc
     | args im0 Hpos Hargc Hin Hc Hl | args im0 Hpos Hargc Hin Hc Hl Ht
     | args im0 out Hpos Hargc Hin Hc Hl Ht Hw
     | args im0 out Hpos Hargc Hin Hc Hl Ht Hw];
    intros H; try (destruct error); in_calls H;
    inversion H; subst;
    (repeat split; try reflexivity; try assumption;
     exists (nth 2 args ""); split; assumption).
Qed.

Lemma transform_call_arguments_witness :
  transforms (final (run as_delivered Sample.world Sample.argv_cmyk))
    = [Sample.cmyk_plain].
Proof.
  apply (transform_call_arguments as_delivered Sample.world Sample.argv_cmyk
           Sample.cmyk_plain
           (CMYK2SRGBJPEG_SRGB_ICM as_delivered)
           (CMYK2SRGBJPEG_BACKSTOP_CMYK_ICC as_delivered)
           (CMYK2SRGBJPEG_CONVERSION_INTENT as_delivered)
           true (Some (Sample.to_srgb Sample.cmyk_plain))).
  vm_compute. do 11 right. left. reflexivity.
Defined.

(** X9. The write step is called at most once; the image it is given is
    the one the colour transform answered for the opened CMYK input
    (never the input image itself), the file name is the one built from
    the output base, and the base has passed the length check. *)
Theorem written_image_is_the_transform_result cfg env argv out f rc :
  In (out, f, rc) (writes (final (run cfg env argv))) ->
  (exists im base,
     opened_input env argv = Some (im, base) /\
     vips_image_get_interpretation im = VIPS_INTERPRETATION_CMYK /\
     strlen base <= longest_base cfg /\
     vips_icc_transform env im
       (CMYK2SRGBJPEG_SRGB_ICM cfg) (CMYK2SRGBJPEG_BACKSTOP_CMYK_ICC cfg)
       (CMYK2SRGBJPEG_CONVERSION_INTENT cfg) true = Some out /\
     f = output_filename cfg base /\
     rc = vips_image_write_to_file env out f) /\
  writes (final (run cfg env argv)) = [(out, f, rc)].
Proof.
  generalize (run_ends cfg env argv). generalize (run cfg env argv).
  intros r Hr.
  destruct Hr as
    [Hi Hpos Hin | error Hi Hp Hpos Hin | args Hpos Hargc Hin
     | args Hpos Hargc Hopen Hin | args im0 Hpos Hargc Hin Hc
     | args im0 Hpos Hargc Hin Hc Hl | args im0 Hpos Hargc Hin Hc Hl Ht
     | args im0 out0 Hpos Hargc Hin Hc Hl Ht Hw
     | args im0 out0 Hpos Hargc Hin Hc Hl Ht Hw];
    intros H; try (destruct error); in_calls H;
    inversion H; subst;
    (split; [| reflexivity]);
    exists im0, (nth 2 args ""); repeat split; auto.
Qed.

Lemma written_image_is_the_transform_result_witness :
  writes (final (run as_delivered Sample.world Sample.argv_cmyk))
    = [(Sample.to_srgb Sample.cmyk_plain, "out/photo.jpg[Q=99]", 0)].
Proof.
  apply (written_image_is_the_transform_result as_delivered Sample.world
           Sample.argv_cmyk).
  vm_compute. left. reflexivity.
Defined.

(* ===================================================================== *)
(** ** How much of the file name the length check protects               *)
(* ===================================================================== *)

Lemma substring_append (a b : string) (n : nat) :
  (String.length a <= n)%nat ->
  substring 0 n (a ++ b) = a ++ substring 0 (n - String.length a) b.
Proof.
  revert n. induction a as [| c a IH]; intros n H; cbn [append String.length].
  - rewrite Nat.sub_0_r. reflexivity.
  - destruct n as [| n]; cbn in H; [lia |].
    cbn [substring Nat.sub]. rewrite IH by lia. reflexivity.
Qed.

Lemma substring_length_le (s : string) (n : nat) :
  (String.length (substring 0 n s) <= n)%nat.
Proof.
  revert n. induction s as [| c s IH]; intros n.
  - destruct n; cbn; lia.
  - destruct n as [| n]; cbn; [lia |]. specialize (IH n). lia.
Qed.

Lemma prefix_substring (s : string) (n : nat) :
  prefix (substring 0 n s) s = true.
Proof.
  revert n. induction s as [| c s IH]; intros n.
  - destruct n; reflexivity.
  - destruct n as [| n]; cbn; [reflexivity |].
    destruct (ascii_dec c c) as [_ | Hne]; [apply IH | now elim Hne].
Qed.

Lemma append_empty_r (s : string) : s ++ "" = s.
Proof.
  induction s as [| c s IH]; cbn; [reflexivity | now rewrite IH].
Qed.

Lemma append_assoc (a b c : string) : (a ++ b) ++ c = a ++ (b ++ c).
Proof.
  induction a as [| x a IH]; cbn; [reflexivity | now rewrite IH].
Qed.

(** The formatted text is the output path followed by the quality
    specifier. *)
Lemma formatted_name_split cfg base :
  formatted_name cfg base =
  (output_path cfg base ++ "[Q=")
    ++ (fmt_d (CMYK2SRGBJPEG_JPEG_QUALITY cfg) ++ "]").
Proof.
  unfold formatted_name, output_path. rewrite !append_assoc. reflexivity.
Qed.

Lemma strlen_output_path cfg base :
  strlen (output_path cfg base) =
  strlen base + 1 + strlen (CMYK2SRGBJPEG_JPEG_EXTENSION cfg).
Proof.
  unfold output_path. rewrite !strlen_append.
  change (strlen ".") with 1. lia.
Qed.

(** A base that passes the length check keeps its path and the opening of
    the quality specifier, whatever the quality. *)
Lemma output_filename_keeps_path cfg base :
  strlen (CMYK2SRGBJPEG_JPEG_EXTENSION cfg) + 8 <= VIPS_PATH_MAX cfg ->
  VIPS_PATH_MAX cfg < 2 ^ size_t_bits ->
  strlen base <= longest_base cfg ->
  exists rest,
    output_filename cfg base = output_path cfg base ++ "[Q=" ++ rest /\
    prefix rest (fmt_d (CMYK2SRGBJPEG_JPEG_QUALITY cfg) ++ "]") = true.
Proof.
  intros Hlo Hhi Hfit.
  rewrite longest_base_plain in Hfit by assumption.
  unfold output_filename, bounded. rewrite formatted_name_split.
  assert (Hlen : strlen (output_path cfg base ++ "[Q=") =
                 strlen base + strlen (CMYK2SRGBJPEG_JPEG_EXTENSION cfg) + 4).
  { rewrite strlen_append, strlen_output_path.
    change (strlen "[Q=") with 3. lia. }
  rewrite substring_append by (unfold strlen in *; lia).
  eexists. split.
  - rewrite append_assoc. reflexivity.
  - apply prefix_substring.
Qed.

(** X10. For every configuration in which the length check does not wrap
    (the extension and 8 more bytes fit in [VIPS_PATH_MAX]), the file
    name handed to the write step always starts with the whole output
    path (base, period, extension) followed by the opening of the quality
    specifier; only the tail of the specifier can be cut by the
    buffer. *)
Theorem written_name_keeps_output_path cfg env argv out f rc :
  strlen (CMYK2SRGBJPEG_JPEG_EXTENSION cfg) + 8 <= VIPS_PATH_MAX cfg ->
  VIPS_PATH_MAX cfg < 2 ^ size_t_bits ->
  In (out, f, rc) (writes (final (run cfg env argv))) ->
  exists args rest,
    positional env argv = Some args /\
    f = output_path cfg (nth 2 args "") ++ "[Q=" ++ rest /\
    prefix rest (fmt_d (CMYK2SRGBJPEG_JPEG_QUALITY cfg) ++ "]") = true.
Proof.
  intros Hlo Hhi Hin.
  destruct (write_step_gets_output_filename _ _ _ _ _ _ Hin)
    as (args & Hpos & Hf).
  assert (Hfit : strlen (nth 2 args "") <= longest_base cfg).
  { apply (write_step_after_length_check cfg env argv args Hpos).
    intros E. rewrite E in Hin. destruct Hin. }
  destruct (output_filename_keeps_path cfg (nth 2 args "") Hlo Hhi Hfit)
    as (rest & Hname & Hpre).
  exists args, rest. rewrite Hf. auto.
Qed.

Lemma written_name_keeps_output_path_witness :
  exists args rest,
    positional Sample.world Sample.argv_longest = Some args /\
    Sample.letters 4085 ++ ".jpg[Q=100"
      = output_path Sample.quality_100 (nth 2 args "") ++ "[Q=" ++ rest /\
    prefix rest (fmt_d (CMYK2SRGBJPEG_JPEG_QUALITY Sample.quality_100) ++ "]")
      = true.
Proof.
  apply (written_name_keeps_output_path Sample.quality_100 Sample.world
           Sample.argv_longest (Sample.to_srgb Sample.cmyk_plain)
           (Sample.letters 4085 ++ ".jpg[Q=100") 0).
  - vm_compute. discriminate.
  - vm_compute. reflexivity.
  - vm_compute. left. reflexivity.
Defined.

Lemma fmt_d_two_digits (q : Z) :
  0 <= q <= 99 -> strlen (fmt_d q) <= 2.
Proof.
  intros H.
  assert (Hall : forallb (fun n => strlen (fmt_d (Z.of_nat n)) <=? 2)
                         (seq 0 100) = true) by (vm_compute; reflexivity).
  rewrite forallb_forall in Hall.
  specialize (Hall (Z.to_nat q)).
  rewrite Z2Nat.id in Hall by lia.
  apply Z.leb_le, Hall, in_seq. lia.
Qed.

(** X11. For a quality in the documented range 0..100 and a base that
    passes the length check, the file name is complete (base, period,
    extension, quality specifier) except in one case: quality 100 with a
    base of exactly the longest admitted length, where exactly the
    closing bracket is lost. *)
Theorem name_complete_unless_100_at_the_limit cfg base :
  strlen (CMYK2SRGBJPEG_JPEG_EXTENSION cfg) + 8 <= VIPS_PATH_MAX cfg ->
  VIPS_PATH_MAX cfg < 2 ^ size_t_bits ->
  0 <= CMYK2SRGBJPEG_JPEG_QUALITY cfg <= 100 ->
  strlen base <= longest_base cfg ->
  (output_filename cfg base = formatted_name cfg base <->
   ~ (CMYK2SRGBJPEG_JPEG_QUALITY cfg = 100 /\
      strlen base = longest_base cfg)) /\
  (CMYK2SRGBJPEG_JPEG_QUALITY cfg = 100 ->
   strlen base = longest_base cfg ->
   output_filename cfg base = output_path cfg base ++ "[Q=100").
Proof.
  intros Hlo Hhi Hq Hfit.
  assert (Hplain := longest_base_plain cfg Hlo Hhi).
  assert (Hcut : CMYK2SRGBJPEG_JPEG_QUALITY cfg = 100 ->
                 strlen base = longest_base cfg ->
                 output_filename cfg base = output_path cfg base ++ "[Q=100").
  { intros H100 Hmax.
    unfold output_filename, bounded. rewrite formatted_name_split, H100.
    change (fmt_d 100 ++ "]") with ("100" ++ "]").
    rewrite <- append_assoc.
    assert (Hlen : strlen ((output_path cfg base ++ "[Q=") ++ "100") =
                   VIPS_PATH_MAX cfg - 1).
    { rewrite !strlen_append, strlen_output_path.
      change (strlen "[Q=") with 3. change (strlen "100") with 3. lia. }
    rewrite substring_append by (unfold strlen in Hlen; lia).
    replace (Z.to_nat (VIPS_PATH_MAX cfg - 1)
             - String.length ((output_path cfg base ++ "[Q=") ++ "100"))%nat
      with 0%nat by (unfold strlen in Hlen; lia).
    cbn [substring]. rewrite append_empty_r, append_assoc. reflexivity. }
  split; [| exact Hcut].
  split.
  - intros Hfull [H100 Hmax].
    rewrite (Hcut H100 Hmax) in Hfull.
    apply (f_equal strlen) in Hfull.
    rewrite strlen_formatted_name, H100 in Hfull.
    rewrite strlen_append, strlen_output_path in Hfull.
    change (strlen "[Q=100") with 6 in Hfull.
    change (strlen (fmt_d 100)) with 3 in Hfull. lia.
  - intros Hnot.
    destruct (Z.eq_dec (CMYK2SRGBJPEG_JPEG_QUALITY cfg) 100) as [H100 | H100].
    + unfold output_filename. apply bounded_fits.
      rewrite strlen_formatted_name, H100.
      change (strlen (fmt_d 100)) with 3.
      assert (strlen base <> longest_base cfg) by tauto. lia.
    + apply output_filename_complete; try assumption.
      apply fmt_d_two_digits. lia.
Qed.

Lemma name_complete_unless_100_at_the_limit_witness :
  output_filename Sample.quality_100 (Sample.letters 4085)
    = output_path Sample.quality_100 (Sample.letters 4085) ++ "[Q=100".
Proof.
  apply (name_complete_unless_100_at_the_limit Sample.quality_100
           (Sample.letters 4085)).
  - vm_compute. discriminate.
  - vm_compute. reflexivity.
  - vm_compute. split; discriminate.
  - vm_compute. discriminate.
  - reflexivity.
  - vm_compute. reflexivity.
Defined.

(* ===================================================================== *)
(** ** Running the program twice                                         *)
(* ===================================================================== *)

Lemma store_same (d : Disk) (p : string) (b : list Byte.byte) :
  store d p b p = Some b.
Proof.
  unfold store. rewrite String.eqb_refl. reflexivity.
Qed.

Lemma store_other (d : Disk) (p q : string) (b : list Byte.byte) :
  p <> q -> store d p b q = d q.
Proof.
  intros H. unfold store.
  destruct (String.eqb_spec q p) as [E | _]; [now elim H | reflexivity].
Qed.

Lemma store_twice (d : Disk) (p q : string) (b : list Byte.byte) :
  store (store d p b) p b q = store d p b q.
Proof.
  unfold store. destruct (String.eqb q p); reflexivity.
Qed.

(** A run that saves nothing leaves the disk as it was, and running again
    is the same run. *)
Lemma second_run_after_nothing_saved cfg base c d argv :
  files_written (on_disk base c d) (final (first_run cfg base c d argv)) = [] ->
  disk_after_first cfg base c d argv = d /\
  second_run cfg base c d argv = first_run cfg base c d argv /\
  disk_after_second cfg base c d argv = d.
Proof.
  intros H.
  assert (Hd : disk_after_first cfg base c d argv = d).
  { unfold disk_after_first, disk_after. rewrite H. reflexivity. }
  assert (Hr : second_run cfg base c d argv = first_run cfg base c d argv).
  { unfold second_run. rewrite Hd. reflexivity. }
  repeat split; try assumption.
  unfold disk_after_second. rewrite Hr, Hd. exact Hd.
Qed.



